(** * A shallow embedding of the trip-management back end

    The development follows [server/storage.ts] (the [DatabaseStorage]
    class) and [server/routes.ts] (the Express handlers registered by
    [registerRoutes]).  Database tables are lists of rows threaded through a
    small state-and-exception monad, JavaScript values keep the distinction
    between [undefined], [null] and strings that the handlers branch on, and
    the numeric built-ins ([Number], binary minus, [toString]) and the SQL
    aggregate [sum] are an interface the handlers are parametric in. *)

From Stdlib Require Import Ascii.
From stdpp Require Import base option list strings sorting pretty numbers.

Local Open Scope string_scope.
Local Open Scope Z_scope.

(** ** JavaScript values *)

(** The values a field of a request payload can take: a key that is missing
    from the object reads as [undefined], and text and decimal columns
    travel as strings. *)
Inductive JsVal : Type :=
  | JUndefined
  | JNull
  | JString (s : string).

#[global] Instance JsVal_eq_dec : EqDecision JsVal.
Proof. solve_decision. Defined.

(** A nullable column read from a row: NULL arrives as [null], text as a
    string. *)
Definition js (column : option string) : JsVal :=
  match column with
  | Some s => JString s
  | None => JNull
  end.

(** ToBoolean: [undefined], [null] and the empty string are falsy. *)
Definition truthy (v : JsVal) : bool :=
  match v with
  | JUndefined | JNull => false
  | JString s => negb (bool_decide (s = ""))
  end.

(** [a || b] *)
Definition js_or (a b : JsVal) : JsVal := if truthy a then a else b.

(** [a ?? b] *)
Definition js_nullish (a b : JsVal) : JsVal :=
  match a with
  | JUndefined | JNull => b
  | JString _ => a
  end.

(** [v !== undefined] *)
Definition is_defined (v : JsVal) : bool :=
  match v with
  | JUndefined => false
  | _ => true
  end.

(** The numeric built-ins the handlers call.  [num] is the JavaScript number
    type; the handlers never inspect a number, they only convert, subtract
    and print, so every result below holds for any implementation of these
    operations, IEEE-754 doubles included. *)
Class JsNumber : Type := {
  num : Type;
  num_zero : num;                      (* the literal [0] *)
  Number_string : string → num;        (* [Number(s)] for a string [s] *)
  num_sub : num → num → num;           (* binary [-] *)
  num_toString : num → string;         (* [n.toString()] *)
  pg_numeric_sum : list string → string (* SQL [sum] over decimal texts *)
}.

Section JsArith.
Context `{JsNumber}.

(** [Number(v || 0)]: a falsy [v] is replaced by the literal [0]. *)
Definition Number_or0 (v : JsVal) : num :=
  match v with
  | JString s => if truthy v then Number_string s else num_zero
  | _ => num_zero
  end.

(** [(Number(a || 0) - Number(b || 0)).toString()], the expression behind
    every stored balance. *)
Definition balance_text (a b : JsVal) : string :=
  num_toString (num_sub (Number_or0 a) (Number_or0 b)).

(** [Number(v)] for a value read from a result row: [Number(null)] is 0. *)
Definition Number_row (v : option string) : num :=
  match v with
  | Some s => Number_string s
  | None => num_zero
  end.
End JsArith.

(** A whole-number instance used to run the handlers on concrete requests:
    numbers are integers, [None] stands for NaN.  It agrees with ECMAScript
    on strings that are plain decimal integers. *)
Module IntNumber.
Definition digit_of (c : ascii) : option Z :=
  let n := Z.of_N (N_of_ascii c) in
  if decide (48 ≤ n ≤ 57) then Some (n - 48) else None.

Fixpoint parse_digits (acc : Z) (s : string) : option Z :=
  match s with
  | EmptyString => Some acc
  | String c s' =>
      match digit_of c with
      | Some d => parse_digits (10 * acc + d) s'
      | None => None
      end
  end.

Definition parse_int (s : string) : option Z :=
  match s with
  | EmptyString => Some 0
  | String c s' =>
      if bool_decide (c = "-"%char)
      then match s' with
           | EmptyString => None
           | _ => Z.opp <$> parse_digits 0 s'
           end
      else parse_digits 0 s
  end.

Definition sub (a b : option Z) : option Z :=
  match a, b with
  | Some x, Some y => Some (x - y)
  | _, _ => None
  end.

Definition to_string (a : option Z) : string :=
  match a with
  | Some x => pretty x
  | None => "NaN"
  end.

Definition sum_texts (l : list string) : string :=
  to_string (foldr (λ s acc, match parse_int s, acc with
                             | Some x, Some y => Some (x + y)
                             | _, _ => None
                             end) (Some 0) l).

#[export] Instance int_number : JsNumber := {|
  num := option Z;
  num_zero := Some 0;
  Number_string := parse_int;
  num_sub := sub;
  num_toString := to_string;
  pg_numeric_sum := sum_texts
|}.
End IntNumber.

(** Binary [+] on numbers.  Only the dashboard adds, so the operation is an
    interface of its own on top of [JsNumber]. *)
Class JsPlus `{JsNumber} : Type := {
  num_add : num → num → num
}.

(** Addition for the whole-number instance. *)
Module IntPlus.
Definition add (a b : option Z) : option Z :=
  match a, b with
  | Some x, Some y => Some (x + y)
  | _, _ => None
  end.

#[export] Instance int_plus : JsPlus (H:=IntNumber.int_number) :=
  @Build_JsPlus IntNumber.int_number add.
End IntPlus.

(** ** The shared schema *)

(** Modelled from the spec: the constant tables [ROLES] and [TRIP_STATUS] of
    [@shared/schema] are not among the sources; the specification names the
    roles ADMIN and MANAGER and the statuses PENDING, COMPLETED and SETTLED. *)
Definition ROLES_ADMIN : string := "ADMIN".
Definition ROLES_MANAGER : string := "MANAGER".
Definition TRIP_STATUS_PENDING : string := "PENDING".
Definition TRIP_STATUS_COMPLETED : string := "COMPLETED".
Definition TRIP_STATUS_SETTLED : string := "SETTLED".

(** Modelled from the spec: the row types of [@shared/schema] are not among
    the sources.  The fields are those the specification lists for User and
    Trip and the code reads.  Identifier, trip code, vehicle number, vehicle
    type, loading date and status are never NULL; names and amounts may be
    NULL ([None]), and amounts are decimal text.  A loading date is an
    instant on the time line, counted in milliseconds. *)
Module User.
Record t : Type := mk {
  id : Z;
  username : string;
  password : string;
  name : string;
  role : string
}.
End User.

Module Trip.
Record t : Type := mk {
  id : Z;
  tripId : string;
  vehicleNumber : string;
  vehicleType : string;
  loadingDate : Z;
  status : string;
  partyName : option string;
  partyFreight : option string;
  partyAdvance : option string;
  partyBalance : option string;
  motorOwnerName : option string;
  motorOwnerBhada : option string;
  motorOwnerAdvance : option string;
  motorOwnerBalance : option string
}.
End Trip.

(** [InsertTrip]: what a create request carries once validated.  A field
    that may be left out is [JUndefined] (or [None]) when it is. *)
Module InsertTrip.
Record t : Type := mk {
  vehicleNumber : string;
  vehicleType : string;
  loadingDate : Z;
  status : option string;
  partyName : JsVal;
  partyFreight : JsVal;
  partyAdvance : JsVal;
  partyBalance : JsVal;
  motorOwnerName : JsVal;
  motorOwnerBhada : JsVal;
  motorOwnerAdvance : JsVal;
  motorOwnerBalance : JsVal
}.

(** [{ ...input, motorOwnerBalance, partyBalance }] *)
Definition with_balances (input : t) (mob pb : JsVal) : t :=
  {| vehicleNumber := vehicleNumber input;
     vehicleType := vehicleType input;
     loadingDate := loadingDate input;
     status := status input;
     partyName := partyName input;
     partyFreight := partyFreight input;
     partyAdvance := partyAdvance input;
     partyBalance := pb;
     motorOwnerName := motorOwnerName input;
     motorOwnerBhada := motorOwnerBhada input;
     motorOwnerAdvance := motorOwnerAdvance input;
     motorOwnerBalance := mob |}.
End InsertTrip.

(** [Partial<InsertTrip>]: every field may be left out. *)
Module Patch.
Record t : Type := mk {
  vehicleNumber : option string;
  vehicleType : option string;
  loadingDate : option Z;
  status : option string;
  partyName : JsVal;
  partyFreight : JsVal;
  partyAdvance : JsVal;
  partyBalance : JsVal;
  motorOwnerName : JsVal;
  motorOwnerBhada : JsVal;
  motorOwnerAdvance : JsVal;
  motorOwnerBalance : JsVal
}.

(** [{ ...input, motorOwnerBalance, partyBalance }] *)
Definition with_balances (input : t) (mob pb : JsVal) : t :=
  {| vehicleNumber := vehicleNumber input;
     vehicleType := vehicleType input;
     loadingDate := loadingDate input;
     status := status input;
     partyName := partyName input;
     partyFreight := partyFreight input;
     partyAdvance := partyAdvance input;
     partyBalance := pb;
     motorOwnerName := motorOwnerName input;
     motorOwnerBhada := motorOwnerBhada input;
     motorOwnerAdvance := motorOwnerAdvance input;
     motorOwnerBalance := mob |}.
End Patch.

(** Modelled from the spec: the insert schema of users is not among the
    sources.  [InsertUser] has the fields the seed block passes to
    [createUser], which are those of a User without the identifier. *)
Module InsertUser.
Record t : Type := mk {
  username : string;
  password : string;
  name : string;
  role : string
}.

(** [{ ...input, password: hashedPassword }] *)
Definition with_password (input : t) (hashedPassword : string) : t :=
  {| username := username input;
     password := hashedPassword;
     name := name input;
     role := role input |}.
End InsertUser.

(** ** The database and the monad of asynchronous calls *)

Record Db : Type := {
  users : list User.t;
  trips : list Trip.t;
  trips_id_seq : Z  (* last value handed out by the serial column *)
}.

(** What a call can raise: a [ZodError] from schema validation, a built-in
    error of the runtime ([TypeError], [RangeError]) named by [RuntimeError],
    and [NotFound], the specification's name for a missing record. *)
Inductive Exn : Type :=
  | ZodError (message field : string)
  | RuntimeError (name : string)
  | NotFound.

Inductive Outcome (A : Type) : Type :=
  | Returned (a : A)
  | Thrown (e : Exn).
Arguments Returned {A} a.
Arguments Thrown {A} e.

(** An [async] computation over the database: it ends with a value or an
    exception, and leaves a database behind. *)
Definition M (A : Type) : Type := Db → Outcome A * Db.

#[global] Instance M_ret : MRet M := λ A a db, (Returned a, db).
#[global] Instance M_bind : MBind M := λ A B k m db,
  match m db with
  | (Returned a, db') => k a db'
  | (Thrown e, db') => (Thrown e, db')
  end.

Definition throw {A} (e : Exn) : M A := λ db, (Thrown e, db).
Definition of_outcome {A} (o : Outcome A) : M A := λ db, (o, db).
Definition select {A} (q : Db → A) : M A := λ db, (Returned (q db), db).

(** [try { ... } catch (err) { ... }] *)
Definition try_catch {A} (m : M A) (handler : Exn → M A) : M A :=
  λ db,
    match m db with
    | (Thrown e, db') => handler e db'
    | r => r
    end.

(** ** SQL operators *)

Definition to_lower (c : ascii) : ascii :=
  let n := N_of_ascii c in
  if decide (65 ≤ n ≤ 90)%N then ascii_of_N (n + 32) else c.

(** [LIKE]: [%] matches any run of characters, [_] any one character, and a
    backslash takes the next pattern character literally. *)
Fixpoint like_match (p s : list ascii) {struct p} : bool :=
  match p with
  | [] => match s with [] => true | _ => false end
  | c :: p' =>
      if bool_decide (c = "%"%char) then
        (fix skip (s : list ascii) : bool :=
           like_match p' s || match s with [] => false | _ :: s' => skip s' end) s
      else if bool_decide (c = "_"%char) then
        match s with [] => false | _ :: s' => like_match p' s' end
      else if bool_decide (c = "\"%char) then
        match p' with
        | [] => match s with [x] => bool_decide (x = c) | _ => false end
        | e :: p'' =>
            match s with
            | [] => false
            | x :: s' => bool_decide (x = e) && like_match p'' s'
            end
        end
      else
        match s with
        | [] => false
        | x :: s' => bool_decide (x = c) && like_match p' s'
        end
  end.

(** [value ILIKE pattern]: [LIKE] after folding both sides to lower case. *)
Definition sql_ilike (value pattern : string) : bool :=
  like_match (to_lower <$> String.list_ascii_of_string pattern)
             (to_lower <$> String.list_ascii_of_string value).

(** [and(...conditions)]; with no condition the query has no WHERE clause. *)
Definition sql_and {R} (conditions : list (R → bool)) (r : R) : bool :=
  forallb (λ c, c r) conditions.

(** [GROUP BY key]: one group per distinct key, NULL being a key like any
    other. *)
Definition sql_group_by {R K} `{EqDecision K} (key : R → K) (rows : list R)
  : list (K * list R) :=
  (λ k, (k, filter (λ r, key r = k) rows)) <$> remove_dups (key <$> rows).

(** [sum(column)]: NULLs are skipped, and the sum of no value is NULL. *)
Definition sql_sum `{JsNumber} (column : list (option string)) : option string :=
  match omap id column with
  | [] => None
  | texts => Some (pg_numeric_sum texts)
  end.

(** [count( * )], delivered by the driver as decimal text. *)
Definition sql_count {R} (rows : list R) : option string :=
  Some (pretty (Z.of_nat (length rows))).

(** [ORDER BY loading_date DESC] *)
Definition loaded_desc (a b : Trip.t) : Prop :=
  Trip.loadingDate b ≤ Trip.loadingDate a.

#[global] Instance loaded_desc_dec : RelDecision loaded_desc.
Proof. intros a b. unfold loaded_desc. apply _. Defined.

#[global] Instance loaded_desc_transitive : Transitive loaded_desc.
Proof. unfold loaded_desc. intros a b c Hab Hbc. lia. Qed.

#[global] Instance loaded_desc_total : Total loaded_desc.
Proof. unfold loaded_desc. intros a b. lia. Qed.

(** ** [server/storage.ts] *)

Module Filters.
Record t : Type := mk {
  vehicleNumber : option string;
  tripId : option string;
  loadedAfter : option Z;
  settled : option bool
}.
End Filters.

Module MotorOwnerAnalytics.
Record row `{JsNumber} : Type := mk {
  name : JsVal;
  tripsDone : num;
  totalBhada : num;
  paid : num;
  balance : num
}.
Arguments mk {H} name tripsDone totalBhada paid balance.
End MotorOwnerAnalytics.

Module PartyAnalytics.
Record row `{JsNumber} : Type := mk {
  name : JsVal;
  totalTrips : num;
  totalFreight : num;
  totalAdvance : num;
  outstandingBalance : num
}.
Arguments mk {H} name totalTrips totalFreight totalAdvance outstandingBalance.
End PartyAnalytics.

Module DashboardStats.
Record t `{JsNumber} : Type := mk {
  totalTrips : nat;                  (* [allTrips.length] *)
  activeTrips : nat;
  partyRevenue : num;
  pendingAmount : num;
  monthlyTrips : list (string * Z);  (* [{ date, count }] *)
  revenueFlow : list (string * Z)    (* [{ month, amount }] *)
}.
Arguments mk {H} totalTrips activeTrips partyRevenue pendingAmount monthlyTrips revenueFlow.
End DashboardStats.

Module Storage.

Definition getUser (id : Z) : M (option User.t) :=
  select (λ db, head (filter (λ u, User.id u = id) (users db))).

Definition getUserByUsername (username : string) : M (option User.t) :=
  select (λ db, head (filter (λ u, User.username u = username) (users db))).

(** [INSERT INTO users ... RETURNING *].  The identifier comes from the
    serial column of the table; the state keeps no counter for it, so the
    value handed out is an argument.  A unique index on the username is not
    modelled: both callers in [routes.ts] insert only after
    [getUserByUsername] found nobody of that name. *)
Definition createUser (id : Z) (user : InsertUser.t) : M User.t :=
  λ db,
    let newUser :=
      {| User.id := id;
         User.username := InsertUser.username user;
         User.password := InsertUser.password user;
         User.name := InsertUser.name user;
         User.role := InsertUser.role user |} in
    (Returned newUser,
     {| users := users db ++ [newUser];
        trips := trips db;
        trips_id_seq := trips_id_seq db |}).

(** The conditions [getTrips] pushes, in the order it pushes them. *)
Definition conditions (filters : option Filters.t) : list (Trip.t → bool) :=
  (match filters ≫= Filters.vehicleNumber with
   | Some v =>
       if bool_decide (v = "") then []
       else [λ t, sql_ilike (Trip.vehicleNumber t) ("%" +:+ v +:+ "%")]
   | None => []
   end) ++
  (match filters ≫= Filters.tripId with
   | Some v =>
       if bool_decide (v = "") then []
       else [λ t, sql_ilike (Trip.tripId t) ("%" +:+ v +:+ "%")]
   | None => []
   end) ++
  (match filters ≫= Filters.loadedAfter with
   | Some d => [λ t, bool_decide (d ≤ Trip.loadingDate t)]
   | None => []
   end) ++
  (match filters ≫= Filters.settled with
   | Some true => [λ t, bool_decide (Trip.status t = TRIP_STATUS_SETTLED)]
   | Some false => [λ t, bool_decide (Trip.status t ≠ TRIP_STATUS_SETTLED)]
   | None => []
   end).

Definition getTrips (filters : option Filters.t) : M (list Trip.t) :=
  select (λ db,
    merge_sort loaded_desc
      (filter (λ t, sql_and (conditions filters) t) (trips db))).

Definition getTrip (id : Z) : M (option Trip.t) :=
  select (λ db, head (filter (λ t, Trip.id t = id) (trips db))).

(** The value written to a nullable column: text, or NULL for [null].  A
    column left out of an INSERT takes its default.  Modelled from the spec:
    the column defaults are part of the absent schema; a status left out
    becomes PENDING, the first status of the life cycle, and any other
    column left out is NULL (the amounts then count as zero). *)
Definition stored (v : JsVal) : option string :=
  match v with
  | JString s => Some s
  | _ => None
  end.

Definition new_row (id : Z) (tripId : string) (trip : InsertTrip.t) : Trip.t :=
  {| Trip.id := id;
     Trip.tripId := tripId;
     Trip.vehicleNumber := InsertTrip.vehicleNumber trip;
     Trip.vehicleType := InsertTrip.vehicleType trip;
     Trip.loadingDate := InsertTrip.loadingDate trip;
     Trip.status := default TRIP_STATUS_PENDING (InsertTrip.status trip);
     Trip.partyName := stored (InsertTrip.partyName trip);
     Trip.partyFreight := stored (InsertTrip.partyFreight trip);
     Trip.partyAdvance := stored (InsertTrip.partyAdvance trip);
     Trip.partyBalance := stored (InsertTrip.partyBalance trip);
     Trip.motorOwnerName := stored (InsertTrip.motorOwnerName trip);
     Trip.motorOwnerBhada := stored (InsertTrip.motorOwnerBhada trip);
     Trip.motorOwnerAdvance := stored (InsertTrip.motorOwnerAdvance trip);
     Trip.motorOwnerBalance := stored (InsertTrip.motorOwnerBalance trip) |}.

(** [createTrip(trip: InsertTrip & { tripId: string })] *)
Definition createTrip (trip : InsertTrip.t) (tripId : string) : M Trip.t :=
  λ db,
    let id := trips_id_seq db + 1 in
    let newTrip := new_row id tripId trip in
    (Returned newTrip,
     {| users := users db;
        trips := trips db ++ [newTrip];
        trips_id_seq := id |}).

(** [.set(trip)]: a key that is [undefined] leaves its column alone; any
    other value, [null] included, is written. *)
Definition set_nullable (new : JsVal) (old : option string) : option string :=
  match new with
  | JUndefined => old
  | _ => stored new
  end.

Definition set_row (patch : Patch.t) (row : Trip.t) : Trip.t :=
  {| Trip.id := Trip.id row;
     Trip.tripId := Trip.tripId row;
     Trip.vehicleNumber := default (Trip.vehicleNumber row) (Patch.vehicleNumber patch);
     Trip.vehicleType := default (Trip.vehicleType row) (Patch.vehicleType patch);
     Trip.loadingDate := default (Trip.loadingDate row) (Patch.loadingDate patch);
     Trip.status := default (Trip.status row) (Patch.status patch);
     Trip.partyName := set_nullable (Patch.partyName patch) (Trip.partyName row);
     Trip.partyFreight := set_nullable (Patch.partyFreight patch) (Trip.partyFreight row);
     Trip.partyAdvance := set_nullable (Patch.partyAdvance patch) (Trip.partyAdvance row);
     Trip.partyBalance := set_nullable (Patch.partyBalance patch) (Trip.partyBalance row);
     Trip.motorOwnerName := set_nullable (Patch.motorOwnerName patch) (Trip.motorOwnerName row);
     Trip.motorOwnerBhada := set_nullable (Patch.motorOwnerBhada patch) (Trip.motorOwnerBhada row);
     Trip.motorOwnerAdvance :=
       set_nullable (Patch.motorOwnerAdvance patch) (Trip.motorOwnerAdvance row);
     Trip.motorOwnerBalance :=
       set_nullable (Patch.motorOwnerBalance patch) (Trip.motorOwnerBalance row) |}.

(** [UPDATE trips SET ... WHERE id = $1 RETURNING *], of which the first
    returned row (or [undefined]) is handed back. *)
Definition updateTrip (id : Z) (trip : Patch.t) : M (option Trip.t) :=
  λ db,
    let rows :=
      (λ t, if decide (Trip.id t = id) then set_row trip t else t) <$> trips db in
    (Returned (head (filter (λ t, Trip.id t = id) rows)),
     {| users := users db; trips := rows; trips_id_seq := trips_id_seq db |}).

Section Analytics.
Context `{JsNumber}.

Definition getMotorOwnerAnalytics : M (list MotorOwnerAnalytics.row) :=
  select (λ db,
    let result :=
      (λ g : option string * list Trip.t,
         (g.1,
          sql_count g.2,
          sql_sum (Trip.motorOwnerBhada <$> g.2),
          sql_sum (Trip.motorOwnerAdvance <$> g.2),
          sql_sum (Trip.motorOwnerBalance <$> g.2)))
      <$> sql_group_by Trip.motorOwnerName
            (filter (λ t, Trip.vehicleType t = "MARKET") (trips db)) in
    (λ r : option string * option string * option string * option string * option string,
       let '(name, tripsDone, totalBhada, paid, balance) := r in
       {| MotorOwnerAnalytics.name := js_or (js name) (JString "Unknown");
          MotorOwnerAnalytics.tripsDone := Number_row tripsDone;
          MotorOwnerAnalytics.totalBhada := Number_row totalBhada;
          MotorOwnerAnalytics.paid := Number_row paid;
          MotorOwnerAnalytics.balance := Number_row balance |})
    <$> result).

Definition getPartyAnalytics : M (list PartyAnalytics.row) :=
  select (λ db,
    let result :=
      (λ g : option string * list Trip.t,
         (g.1,
          sql_count g.2,
          sql_sum (Trip.partyFreight <$> g.2),
          sql_sum (Trip.partyAdvance <$> g.2),
          sql_sum (Trip.partyBalance <$> g.2)))
      <$> sql_group_by Trip.partyName (trips db) in
    (λ r : option string * option string * option string * option string * option string,
       let '(name, totalTrips, totalFreight, totalAdvance, outstandingBalance) := r in
       {| PartyAnalytics.name := js name;
          PartyAnalytics.totalTrips := Number_row totalTrips;
          PartyAnalytics.totalFreight := Number_row totalFreight;
          PartyAnalytics.totalAdvance := Number_row totalAdvance;
          PartyAnalytics.outstandingBalance := Number_row outstandingBalance |})
    <$> result).
End Analytics.

Section Dashboard.
Context `{JsPlus}.

(** The two chart series are literals of the source. *)
Definition getDashboardStats : M DashboardStats.t :=
  select (λ db,
    let allTrips := trips db in
    let totalTrips := length allTrips in
    let activeTrips :=
      length (filter (λ t, Trip.status t ≠ TRIP_STATUS_COMPLETED
                           ∧ Trip.status t ≠ TRIP_STATUS_SETTLED) allTrips) in
    let partyRevenue :=
      foldl (λ sum t, num_add sum (Number_or0 (js (Trip.partyFreight t)))) num_zero allTrips in
    let pendingAmount :=
      foldl (λ sum t, num_add sum (Number_or0 (js (Trip.partyBalance t)))) num_zero allTrips in
    let monthlyTrips := [("2024-01", 12); ("2024-02", 19); ("2024-03", 15)] in
    let revenueFlow := [("Jan", 50000); ("Feb", 75000); ("Mar", 60000)] in
    {| DashboardStats.totalTrips := totalTrips;
       DashboardStats.activeTrips := activeTrips;
       DashboardStats.partyRevenue := partyRevenue;
       DashboardStats.pendingAmount := pendingAmount;
       DashboardStats.monthlyTrips := monthlyTrips;
       DashboardStats.revenueFlow := revenueFlow |}).
End Dashboard.

End Storage.

(** ** [server/routes.ts] *)

(** [s.split(sep)] for a one-character separator. *)
Fixpoint split_on (sep : ascii) (s : string) : list string :=
  match s with
  | EmptyString => [EmptyString]
  | String c s' =>
      if bool_decide (c = sep) then EmptyString :: split_on sep s'
      else match split_on sep s' with
           | x :: xs => String c x :: xs
           | [] => [String c EmptyString]
           end
  end.

Definition hex_digit (c : ascii) : option N :=
  let n := N_of_ascii c in
  if decide (48 ≤ n ≤ 57)%N then Some (n - 48)%N
  else if decide (97 ≤ n ≤ 102)%N then Some (n - 87)%N
  else if decide (65 ≤ n ≤ 70)%N then Some (n - 55)%N
  else None.

(** [Buffer.from(s, "hex")]: whole pairs of hex digits, up to the first pair
    that is not one. *)
Fixpoint Buffer_from_hex (s : string) : list N :=
  match s with
  | String a (String b s') =>
      match hex_digit a, hex_digit b with
      | Some x, Some y => (16 * x + y)%N :: Buffer_from_hex s'
      | _, _ => []
      end
  | _ => []
  end.

Definition hex_char (d : N) : ascii :=
  if decide (d < 10)%N then ascii_of_N (48 + d) else ascii_of_N (87 + d).

(** [buf.toString("hex")]: two lower-case hex digits per byte. *)
Fixpoint Buffer_toString_hex (bytes : list N) : string :=
  match bytes with
  | [] => EmptyString
  | b :: bs =>
      String (hex_char (b / 16)) (String (hex_char (b mod 16)) (Buffer_toString_hex bs))
  end.

(** [crypto.timingSafeEqual]: buffers of different lengths are an error. *)
Definition timingSafeEqual (a b : list N) : Outcome bool :=
  if decide (length a = length b) then Returned (bool_decide (a = b))
  else Thrown (RuntimeError "RangeError").

(** [sendStatus] writes the standard reason phrase as the body. *)
Definition STATUS_CODES (code : Z) : string :=
  if decide (code = 200) then "OK"
  else if decide (code = 400) then "Bad Request"
  else if decide (code = 401) then "Unauthorized"
  else if decide (code = 403) then "Forbidden"
  else if decide (code = 404) then "Not Found"
  else "".

Module Query.
(** The query string of the list route, once validated. *)
Record t : Type := mk {
  vehicleNumber : option string;
  tripId : option string;
  loadedAfter : option string;
  settled : option string
}.
End Query.

Section Routes.
Context `{JsNumber}.

(** The collaborators outside the repository: the key-derivation function
    of [crypto] (password, salt, 64 bytes), the request schemas of
    [@shared/routes], and the date parser behind [new Date(text)] ([None]
    for an invalid date). *)
Context {Body : Type}.
Variable scrypt : string → string → list N.
Variable api_trips_create_input_parse : Body → Outcome InsertTrip.t.
Variable api_trips_update_input_parse : Body → Outcome Patch.t.
Variable Date_parse : string → option Z.

Inductive Json : Type :=
  | Text (s : string)
  | Message (message : string)
  | FieldError (message field : string)
  | TripJson (t : Trip.t)
  | TripsJson (l : list Trip.t)
  | UserJson (u : User.t)
  | MotorOwnersJson (l : list MotorOwnerAnalytics.row)
  | Nothing.

Record Response : Type := mkResponse {
  statusCode : Z;
  payload : Json
}.

Record Request : Type := mkRequest {
  user : option User.t;   (* [req.user], set from the session *)
  params_id : Z;          (* [Number(req.params.id)] *)
  query : option Query.t; (* [req.query], validated *)
  body : Body;            (* [req.body] *)
  year : Z                (* [new Date().getFullYear()] when it is handled *)
}.

Definition sendStatus (code : Z) : Response := mkResponse code (Text (STATUS_CODES code)).
Definition json (code : Z) (j : Json) : Response := mkResponse code j.

(** *** Authentication *)

(** [hashPassword(password)], given the sixteen bytes [randomBytes(16)]
    returned. *)
Definition hashPassword (randomBytes16 : list N) (password : string) : string :=
  let salt := Buffer_toString_hex randomBytes16 in
  let derivedKey := scrypt password salt in
  salt +:+ ":" +:+ Buffer_toString_hex derivedKey.

Definition comparePasswords (supplied stored : string) : Outcome bool :=
  match split_on ":" stored with
  | salt :: key :: _ =>
      let derivedKey := scrypt supplied salt in
      timingSafeEqual (Buffer_from_hex key) derivedKey
  | _ => Thrown (RuntimeError "TypeError")
  end.

(** What the verify callback hands to [done]. *)
Inductive Verified : Type :=
  | DoneError (err : Exn)               (* [done(err)] *)
  | DoneFalse (message : string)        (* [done(null, false, { message })] *)
  | DoneUser (user : User.t).           (* [done(null, user)] *)

(** The verify callback given to [LocalStrategy]. *)
Definition verify (username password : string) : M Verified :=
  try_catch
    (user ← Storage.getUserByUsername username;
     match user with
     | None => mret (DoneFalse "Incorrect username.")
     | Some user =>
         isValid ← of_outcome (comparePasswords password (User.password user));
         if isValid : bool then mret (DoneUser user)
         else mret (DoneFalse "Incorrect password.")
     end)
    (λ err, mret (DoneError err)).

(** [passport.serializeUser]: the session keeps the user's identifier. *)
Definition serializeUser (user : User.t) : Z := User.id user.

(** [passport.deserializeUser]: [req.user] of a later request. *)
Definition deserializeUser (id : Z) : M (option User.t) := Storage.getUser id.

(** The outcome of the login route: the response, and the identifier
    written to a fresh session when one is established. *)
Record LoginResult : Type := mkLogin {
  response : Response;
  session : option Z
}.

(** [passport.authenticate("local")] followed by the route's own handler.
    The strategy rejects a request that lacks a username or a password
    with status 400 before it calls [verify]; a failure is answered with
    the failure's status, 401 when it has none, and the reason phrase as
    body, the [message] of the verify callback being dropped; an error is
    passed on; a user is logged in and the handler sends it back. *)
Definition login (username password : option string) : M LoginResult :=
  match username, password with
  | Some u, Some p =>
      if bool_decide (u = "") || bool_decide (p = "")
      then mret (mkLogin (sendStatus 400) None)
      else
        v ← verify u p;
        match v with
        | DoneError err => throw err
        | DoneFalse _ => mret (mkLogin (sendStatus 401) None)
        | DoneUser user => mret (mkLogin (json 200 (UserJson user)) (Some (serializeUser user)))
        end
  | _, _ => mret (mkLogin (sendStatus 400) None)
  end.

Definition requireAuth (req : Request) (next : User.t → M Response) : M Response :=
  match user req with
  | Some u => next u
  | None => mret (sendStatus 401)
  end.

Definition requireAdmin (req : Request) (next : User.t → M Response) : M Response :=
  match user req with
  | Some u =>
      if bool_decide (User.role u = ROLES_ADMIN) then next u
      else mret (sendStatus 403)
  | None => mret (sendStatus 403)
  end.

(** The [catch] clause shared by the create and update handlers. *)
Definition catch_zod (m : M Response) : M Response :=
  try_catch m (λ err,
    match err with
    | ZodError message field => mret (json 400 (FieldError message field))
    | _ => throw err
    end).

(** *** Trips *)

(** [query?.loadedAfter ? new Date(query.loadedAfter) : undefined]; an
    invalid date makes [toISOString] raise when the filter is built. *)
Definition loadedAfter_filter (text : option string) : M (option Z) :=
  match text with
  | Some text =>
      if bool_decide (text = "") then mret None
      else match Date_parse text with
           | Some d => mret (Some d)
           | None => throw (RuntimeError "RangeError")
           end
  | None => mret None
  end.

(** [query?.settled === 'true' ? true : query?.settled === 'false' ? false
    : undefined] *)
Definition settled_filter (text : option string) : option bool :=
  if bool_decide (text = Some "true") then Some true
  else if bool_decide (text = Some "false") then Some false
  else None.

(** [GET] list. *)
Definition list_trips (req : Request) : M Response :=
  requireAuth req (λ _,
    loadedAfter ← loadedAfter_filter (query req ≫= Query.loadedAfter);
    let filters :=
      {| Filters.vehicleNumber := query req ≫= Query.vehicleNumber;
         Filters.tripId := query req ≫= Query.tripId;
         Filters.loadedAfter := loadedAfter;
         Filters.settled := settled_filter (query req ≫= Query.settled) |} in
    trips ← Storage.getTrips (Some filters);
    mret (json 200 (TripsJson trips))).

(** [GET] one trip. *)
Definition get_trip (req : Request) : M Response :=
  requireAuth req (λ _,
    trip ← Storage.getTrip (params_id req);
    match trip with
    | None => mret (sendStatus 404)
    | Some trip => mret (json 200 (TripJson trip))
    end).

(** [POST] create. *)
Definition create_trip (req : Request) : M Response :=
  requireAuth req (λ _,
    catch_zod
      (input ← of_outcome (api_trips_create_input_parse (body req));
       all ← Storage.getTrips None;
       let count := Z.of_nat (length all) + 1 in
       let tripId := pretty (year req) +:+ "_" +:+ pretty count in
       let motorOwnerBalance :=
         JString (balance_text (InsertTrip.motorOwnerBhada input)
                               (InsertTrip.motorOwnerAdvance input)) in
       let partyBalance :=
         JString (balance_text (InsertTrip.partyFreight input)
                               (InsertTrip.partyAdvance input)) in
       trip ← Storage.createTrip
                (InsertTrip.with_balances input motorOwnerBalance partyBalance)
                tripId;
       mret (json 201 (TripJson trip)))).

(** The two balances the update handler stores. *)
Definition update_motorOwnerBalance (input : Patch.t) (existingTrip : Trip.t) : JsVal :=
  if truthy (js_or (Patch.motorOwnerBhada input) (Patch.motorOwnerAdvance input)) then
    let bhada :=
      js_nullish (Patch.motorOwnerBhada input) (js (Trip.motorOwnerBhada existingTrip)) in
    let advance :=
      js_nullish (Patch.motorOwnerAdvance input) (js (Trip.motorOwnerAdvance existingTrip)) in
    JString (balance_text bhada advance)
  else js (Trip.motorOwnerBalance existingTrip).

Definition update_partyBalance (input : Patch.t) (existingTrip : Trip.t) : JsVal :=
  if truthy (js_or (Patch.partyFreight input) (Patch.partyAdvance input)) then
    let freight :=
      js_nullish (Patch.partyFreight input) (js (Trip.partyFreight existingTrip)) in
    let advance :=
      js_nullish (Patch.partyAdvance input) (js (Trip.partyAdvance existingTrip)) in
    JString (balance_text freight advance)
  else js (Trip.partyBalance existingTrip).

(** [PUT] update. *)
Definition update_trip (req : Request) : M Response :=
  requireAuth req (λ caller,
    catch_zod
      (let id := params_id req in
       input ← of_outcome (api_trips_update_input_parse (body req));
       existingTrip ← Storage.getTrip id;
       match existingTrip with
       | None => mret (sendStatus 404)
       | Some existingTrip =>
           if bool_decide (User.role caller ≠ ROLES_ADMIN)
              && (bool_decide (Trip.status existingTrip = TRIP_STATUS_COMPLETED)
                  || bool_decide (Trip.status existingTrip = TRIP_STATUS_SETTLED))
           then mret (json 403 (Message "Managers cannot edit completed or settled trips."))
           else if bool_decide (User.role caller ≠ ROLES_ADMIN)
                   && is_defined (Patch.motorOwnerBhada input)
           then mret (json 403 (Message "Managers cannot edit Bhada."))
           else
             let motorOwnerBalance := update_motorOwnerBalance input existingTrip in
             let partyBalance := update_partyBalance input existingTrip in
             trip ← Storage.updateTrip id
                      (Patch.with_balances input motorOwnerBalance partyBalance);
             match trip with
             | Some trip => mret (json 200 (TripJson trip))
             | None => mret (json 200 Nothing)
             end
       end)).

(** *** Analytics *)

Definition motor_owner_analytics (req : Request) : M Response :=
  requireAdmin req (λ _,
    stats ← Storage.getMotorOwnerAnalytics;
    mret (json 200 (MotorOwnersJson stats))).


(** *** The session, and the first administrator *)

(** [passport.session()]: [req.user] of a request is what [deserializeUser]
    finds for the identifier its session keeps; without a session, or when
    nobody is found, the request is not authenticated. *)
Definition with_session (session : option Z) (req : Request) : M Request :=
  match session with
  | Some id =>
      found ← deserializeUser id;
      mret (mkRequest found (params_id req) (query req) (body req) (year req))
  | None => mret (mkRequest None (params_id req) (query req) (body req) (year req))
  end.

(** [POST] logout: [req.logout] empties the session, and the route answers
    200 whether or not anyone was logged in. *)
Definition logout : M LoginResult := mret (mkLogin (sendStatus 200) None).

(** [GET] me. *)
Definition me (req : Request) : M Response :=
  match user req with
  | None => mret (sendStatus 401)
  | Some u => mret (json 200 (UserJson u))
  end.

(** The seed block of [registerRoutes], given the identifier the users
    table would hand out and the bytes [randomBytes(16)] would return. *)
Definition seed_admin (id : Z) (randomBytes16 : list N) : M () :=
  existingAdmin ← Storage.getUserByUsername "admin";
  match existingAdmin with
  | Some _ => mret ()
  | None =>
      let hashedPassword := hashPassword randomBytes16 "admin123" in
      _ ← Storage.createUser id
            {| InsertUser.username := "admin";
               InsertUser.password := hashedPassword;
               InsertUser.name := "System Admin";
               InsertUser.role := ROLES_ADMIN |};
      mret ()
  end.

(** *** Users *)

Variable api_users_create_input_parse : Body → Outcome InsertUser.t.

(** [POST] create user, given the identifier the users table would hand
    out and the bytes [randomBytes(16)] would return. *)
Definition create_user (id : Z) (randomBytes16 : list N) (req : Request) : M Response :=
  requireAdmin req (λ _,
    catch_zod
      (input ← of_outcome (api_users_create_input_parse (body req));
       existingUser ← Storage.getUserByUsername (InsertUser.username input);
       match existingUser with
       | Some _ => mret (json 400 (FieldError "Username already exists" "username"))
       | None =>
           let hashedPassword := hashPassword randomBytes16 (InsertUser.password input) in
           user ← Storage.createUser id (InsertUser.with_password input hashedPassword);
           mret (json 201 (UserJson user))
       end)).

(** *** The dashboard and the party report *)

Context {plus : JsPlus}.

(** What the two routes send: a response of the kinds above, or a report
    as JSON under a status. *)
Inductive Report : Type :=
  | DashboardJson (stats : DashboardStats.t)
  | PartiesJson (rows : list PartyAnalytics.row).

Inductive Reply : Type :=
  | Plain (r : Response)
  | Sent (code : Z) (report : Report).

(** [requireAdmin] in front of a handler that sends a report. *)
Definition requireAdmin_report (req : Request) (next : User.t → M Reply) : M Reply :=
  match user req with
  | Some u =>
      if bool_decide (User.role u = ROLES_ADMIN) then next u
      else mret (Plain (sendStatus 403))
  | None => mret (Plain (sendStatus 403))
  end.

Definition dashboard (req : Request) : M Reply :=
  requireAdmin_report req (λ _,
    stats ← Storage.getDashboardStats;
    mret (Sent 200 (DashboardJson stats))).

Definition party_analytics (req : Request) : M Reply :=
  requireAdmin_report req (λ _,
    stats ← Storage.getPartyAnalytics;
    mret (Sent 200 (PartiesJson stats))).

End Routes.

(** ** The vocabulary of the specification *)

(** Every filter that was supplied holds of the trip (an empty text filter
    counts as not supplied). *)
Definition matches (filters : option Filters.t) (t : Trip.t) : Prop :=
  (∀ v, filters ≫= Filters.vehicleNumber = Some v → v ≠ "" →
        sql_ilike (Trip.vehicleNumber t) ("%" +:+ v +:+ "%"))
  ∧ (∀ v, filters ≫= Filters.tripId = Some v → v ≠ "" →
          sql_ilike (Trip.tripId t) ("%" +:+ v +:+ "%"))
  ∧ (∀ d, filters ≫= Filters.loadedAfter = Some d → d ≤ Trip.loadingDate t)
  ∧ (filters ≫= Filters.settled = Some true → Trip.status t = TRIP_STATUS_SETTLED)
  ∧ (filters ≫= Filters.settled = Some false → Trip.status t ≠ TRIP_STATUS_SETTLED).



(** A value that is neither [undefined] nor [null]. *)
Definition has_value (v : JsVal) : bool :=
  match v with
  | JString _ => true
  | _ => false
  end.

(** A field the payload either leaves out or fills with non-empty text. *)
Definition absent_or_filled (v : JsVal) : Prop := v = JUndefined ∨ truthy v = true.

Section BalanceRule.
Context `{JsNumber}.

(** The balance rule as the specification words it, for a reading
    [present] of "present in the payload": recompute when either input is
    present, each operand being the new value when present and the stored
    one otherwise; carry the stored balance forward when neither is. *)
Definition recompute_when_present (present : JsVal → bool)
    (new_amount new_advance old_amount old_advance old_balance : JsVal) : JsVal :=
  if present new_amount || present new_advance
  then JString (balance_text (if present new_amount then new_amount else old_amount)
                             (if present new_advance then new_advance else old_advance))
  else old_balance.

(** The rule applied to the two balances of a trip under update. *)
Definition rule_motorOwnerBalance (present : JsVal → bool)
    (input : Patch.t) (existingTrip : Trip.t) : JsVal :=
  recompute_when_present present
    (Patch.motorOwnerBhada input) (Patch.motorOwnerAdvance input)
    (js (Trip.motorOwnerBhada existingTrip)) (js (Trip.motorOwnerAdvance existingTrip))
    (js (Trip.motorOwnerBalance existingTrip)).

Definition rule_partyBalance (present : JsVal → bool)
    (input : Patch.t) (existingTrip : Trip.t) : JsVal :=
  recompute_when_present present
    (Patch.partyFreight input) (Patch.partyAdvance input)
    (js (Trip.partyFreight existingTrip)) (js (Trip.partyAdvance existingTrip))
    (js (Trip.partyBalance existingTrip)).

(** The two stored balances are the differences of their stored inputs. *)
Definition balanced (t : Trip.t) : Prop :=
  Trip.partyBalance t
  = Some (balance_text (js (Trip.partyFreight t)) (js (Trip.partyAdvance t)))
  ∧ Trip.motorOwnerBalance t
    = Some (balance_text (js (Trip.motorOwnerBhada t)) (js (Trip.motorOwnerAdvance t))).
End BalanceRule.

(** Text without a colon, and a buffer whose entries are bytes. *)
Definition no_colon (s : string) : Prop :=
  Forall (λ c, c ≠ ":"%char) (String.list_ascii_of_string s).

Definition bytes (buffer : list N) : Prop := Forall (λ b, b < 256)%N buffer.


(** A trip no manager may edit any more. *)
Definition closed (t : Trip.t) : Prop :=
  Trip.status t = TRIP_STATUS_COMPLETED ∨ Trip.status t = TRIP_STATUS_SETTLED.

#[global] Instance closed_dec (t : Trip.t) : Decision (closed t).
Proof. unfold closed. apply _. Defined.

(** Identifiers of trips are unique and none is ahead of the serial
    column. *)
Definition ids_fresh (db : Db) : Prop :=
  NoDup (Trip.id <$> trips db)
  ∧ Forall (λ t, Trip.id t ≤ trips_id_seq db) (trips db).

(** Text without an underscore. *)
Definition no_underscore (s : string) : Prop :=
  Forall (λ c, c ≠ "_"%char) (String.list_ascii_of_string s).

(** Trip codes follow the order of the rows: the code of the n-th trip is
    some year, an underscore and n. *)
Definition codes_in_sequence (db : Db) : Prop :=
  ∀ (i : nat) (t : Trip.t),
    trips db !! i = Some t →
    ∃ year : Z, Trip.tripId t = pretty year +:+ "_" +:+ pretty (Z.of_nat i + 1).

(** Text in which no character means anything special to [LIKE]. *)
Definition plain_char (c : ascii) : Prop :=
  c ≠ "%"%char ∧ c ≠ "_"%char ∧ c ≠ "\"%char.

Definition plain_text (s : string) : Prop :=
  Forall plain_char (String.list_ascii_of_string s).

(** The characters of a text folded to lower case, and one run of
    characters occurring inside another. *)
Definition lower (s : string) : list ascii :=
  to_lower <$> String.list_ascii_of_string s.

Definition occurs_in (part text : list ascii) : Prop :=
  ∃ before after, text = (before ++ part ++ after)%list.

(** The same request as made by another caller, or by nobody. *)
Definition on_behalf_of {Body : Type} (caller : option User.t) (req : Request (Body:=Body))
  : Request (Body:=Body) :=
  mkRequest caller (params_id req) (query req) (body req) (year req).

(** ** A small ledger to run the handlers on *)

Module Sample.
Definition admin : User.t := User.mk 1 "admin" "5a:0102" "System Admin" ROLES_ADMIN.
Definition manager : User.t := User.mk 2 "ravi" "5a:0102" "Ravi" ROLES_MANAGER.

(** A pending trip by a hired vehicle: freight 1000, advance 200; hire 700,
    advance 100. *)
Definition pending : Trip.t :=
  Trip.mk 1 "2024_1" "MH12AB1234" "MARKET" 1700000000000 TRIP_STATUS_PENDING
    (Some "Acme") (Some "1000") (Some "200") (Some "800")
    (Some "Singh") (Some "700") (Some "100") (Some "600").

(** A settled trip by an owned vehicle. *)
Definition settled : Trip.t :=
  Trip.mk 2 "2024_2" "MH14CD5678" "OWN" 1700086400000 TRIP_STATUS_SETTLED
    (Some "Acme") (Some "500") (Some "500") (Some "0")
    None None None (Some "0").

Definition db : Db := {| users := [admin; manager]; trips := [pending; settled]; trips_id_seq := 2 |}.

(** Two more hired-vehicle trips: one whose owner was never named, and a
    second one by the owner of the pending trip. *)
Definition unnamed : Trip.t :=
  Trip.mk 3 "2024_3" "MH20GH3456" "MARKET" 1700259200000 TRIP_STATUS_COMPLETED
    (Some "Bharat Traders") (Some "400") None (Some "400")
    None (Some "300") None (Some "300").

Definition second_singh : Trip.t :=
  Trip.mk 4 "2024_4" "MH12AB1234" "MARKET" 1700345600000 TRIP_STATUS_SETTLED
    (Some "Acme") (Some "800") (Some "800") (Some "0")
    (Some "Singh") (Some "500") (Some "500") (Some "0").

Definition fleet : Db :=
  {| users := [admin; manager];
     trips := [pending; settled; unnamed; second_singh];
     trips_id_seq := 4 |}.



(** The sample ledger before anyone was registered. *)
Definition nobody : Db := {| users := []; trips := [pending; settled]; trips_id_seq := 2 |}.

(** Payloads of the update route. *)
Definition set_bhada (v : JsVal) : Patch.t :=
  Patch.mk None None None None JUndefined JUndefined JUndefined JUndefined
    JUndefined v JUndefined JUndefined.
Definition set_owner_advance (v : JsVal) : Patch.t :=
  Patch.mk None None None None JUndefined JUndefined JUndefined JUndefined
    JUndefined JUndefined v JUndefined.
Definition set_party_advance (v : JsVal) : Patch.t :=
  Patch.mk None None None None JUndefined JUndefined v JUndefined
    JUndefined JUndefined JUndefined JUndefined.
Definition set_vehicle (v : string) : Patch.t :=
  Patch.mk (Some v) None None None JUndefined JUndefined JUndefined JUndefined
    JUndefined JUndefined JUndefined JUndefined.

(** A payload of the create route: freight 900 against an advance of 150,
    hire 600 with no advance, and balances the caller made up. *)
Definition new_trip : InsertTrip.t :=
  InsertTrip.mk "MH31EF9012" "MARKET" 1700172800000 None
    (JString "Bharat Traders") (JString "900") (JString "150") (JString "1")
    (JString "Yadav") (JString "600") JUndefined (JString "2").

(** Requests whose body is the validated payload itself, to be used with
    a schema that accepts every body. *)
Definition put (caller : User.t) (id : Z) (payload : Patch.t) : Request :=
  mkRequest (Some caller) id None payload 2024.
Definition post (caller : User.t) (payload : InsertTrip.t) : Request :=
  mkRequest (Some caller) 0 None payload 2024.

(** A stand-in for the key-derivation function. *)
Definition toy_scrypt (password salt : string) : list N :=
  if bool_decide (password = "admin123") then [1; 2]%N else [0; 0]%N.

(** A user whose password was stored as typed, not as salt and key, and
    one whose stored key is a single byte. *)
Definition legacy : User.t := User.mk 3 "meena" "letmein" "Meena" ROLES_MANAGER.
Definition short_key : User.t := User.mk 4 "omar" "5a:01" "Omar" ROLES_MANAGER.
Definition db_legacy : Db :=
  {| users := [admin; manager; legacy; short_key];
     trips := [pending; settled];
     trips_id_seq := 2 |}.

(** The payload of a user-creation request, and the request carrying it. *)
Definition new_user : InsertUser.t := InsertUser.mk "asha" "s3cret" "Asha" ROLES_MANAGER.
Definition post_user (caller : User.t) : Request :=
  mkRequest (Some caller) 0 None new_user 2024.

(** A request with an empty body: for trip [id] by [caller], and as it
    arrives before its session is looked at. *)
Definition get (caller : User.t) (id : Z) : Request := mkRequest (Some caller) id None () 2024.
Definition incoming : Request := mkRequest None 0 None () 2024.

(** A schema that rejects every body, and a date parser that knows no
    date. *)
Definition reject {A : Type} (b : ()) : Outcome A :=
  Thrown (ZodError "Required" "vehicleNumber").
Definition no_date (text : string) : option Z := None.

(** The sample ledger after its first trip was removed by hand. *)
Definition gap : Db := {| users := [admin; manager]; trips := [settled]; trips_id_seq := 2 |}.
End Sample.

(** * Properties *)

(** ** Running monadic code *)

Lemma bind_returned {A B} (m : M A) (k : A → M B) (db db' : Db) (a : A) :
  m db = (Returned a, db') → (m ≫= k) db = k a db'.
Proof. intros Hm. unfold mbind, M_bind. by rewrite Hm. Qed.

Lemma bind_thrown {A B} (m : M A) (k : A → M B) (db db' : Db) (e : Exn) :
  m db = (Thrown e, db') → (m ≫= k) db = (Thrown e, db').
Proof. intros Hm. unfold mbind, M_bind. by rewrite Hm. Qed.

Lemma try_catch_returned {A} (m : M A) (h : Exn → M A) (db db' : Db) (a : A) :
  m db = (Returned a, db') → try_catch m h db = (Returned a, db').
Proof. intros Hm. unfold try_catch. by rewrite Hm. Qed.

Lemma getTrip_head (id : Z) (db : Db) (o : option Trip.t) :
  Storage.getTrip id db = (Returned o, db) →
  head (filter (λ t, Trip.id t = id) (trips db)) = o.
Proof. unfold Storage.getTrip, select. congruence. Qed.

Lemma getTrips_all_length (db : Db) :
  ∃ all, Storage.getTrips None db = (Returned all, db) ∧ length all = length (trips db).
Proof.
  eexists. split; [reflexivity|].
  rewrite merge_sort_Permutation. simpl.
  f_equal. induction (trips db) as [|t l IH]; [done|].
  rewrite filter_cons_True by done. by f_equal.
Qed.

(** The row the update statement returns is the patched one. *)
Lemma head_filter_update (id : Z) (f : Trip.t → Trip.t) (rows : list Trip.t) :
  (∀ t, Trip.id (f t) = Trip.id t) →
  head (filter (λ t, Trip.id t = id)
          ((λ t, if decide (Trip.id t = id) then f t else t) <$> rows))
  = f <$> head (filter (λ t, Trip.id t = id) rows).
Proof.
  intros Hid. induction rows as [|t rows IH]; [done|].
  rewrite fmap_cons. destruct (decide (Trip.id t = id)) as [Heq|Hne].
  - rewrite (filter_cons_True _ (f t)) by (by rewrite Hid).
    by rewrite (filter_cons_True _ t) by done.
  - rewrite !filter_cons_False by done. done.
Qed.

Lemma updateTrip_result (id : Z) (patch : Patch.t) (db : Db) :
  ∃ db', Storage.updateTrip id patch db
         = (Returned (Storage.set_row patch <$> head (filter (λ t, Trip.id t = id) (trips db))), db')
       ∧ Storage.getTrip id db'
         = (Returned (Storage.set_row patch <$> head (filter (λ t, Trip.id t = id) (trips db))), db').
Proof.
  eexists. split.
  - unfold Storage.updateTrip. simpl. rewrite head_filter_update by done. reflexivity.
  - unfold Storage.getTrip, select. simpl. by rewrite head_filter_update.
Qed.

(** ** The policy of the update route, and creation *)

Section Handlers.
Context `{JsNumber} {Body : Type}.
Variable api_trips_create_input_parse : Body → Outcome InsertTrip.t.
Variable api_trips_update_input_parse : Body → Outcome Patch.t.

Abbreviation PUT_trip := (update_trip api_trips_update_input_parse).
Abbreviation POST_trip := (create_trip api_trips_create_input_parse).

(** The update handler up to its two policy checks: with an authenticated
    caller, a payload that validates and an existing trip, the handler is
    the conditional of the source. *)
Lemma update_trip_unfold (req : Request) (caller : User.t) (input : Patch.t)
    (existingTrip : Trip.t) (db : Db) :
  user req = Some caller →
  api_trips_update_input_parse (body req) = Returned input →
  Storage.getTrip (params_id req) db = (Returned (Some existingTrip), db) →
  PUT_trip req db =
    if bool_decide (User.role caller ≠ ROLES_ADMIN)
       && (bool_decide (Trip.status existingTrip = TRIP_STATUS_COMPLETED)
           || bool_decide (Trip.status existingTrip = TRIP_STATUS_SETTLED))
    then (Returned (json 403 (Message "Managers cannot edit completed or settled trips.")), db)
    else if bool_decide (User.role caller ≠ ROLES_ADMIN)
            && is_defined (Patch.motorOwnerBhada input)
    then (Returned (json 403 (Message "Managers cannot edit Bhada.")), db)
    else
      match Storage.updateTrip (params_id req)
              (Patch.with_balances input
                 (update_motorOwnerBalance input existingTrip)
                 (update_partyBalance input existingTrip)) db with
      | (Returned (Some trip), db') => (Returned (json 200 (TripJson trip)), db')
      | (Returned None, db') => (Returned (json 200 Nothing), db')
      | (Thrown e, db') => (Thrown e, db')
      end.
Proof.
  intros Huser Hparse Hget.
  unfold update_trip, requireAuth. rewrite Huser.
  unfold catch_zod, try_catch, of_outcome. rewrite Hparse.
  unfold mbind, M_bind at 1. unfold mbind, M_bind at 1. rewrite Hget.
  destruct (bool_decide (User.role caller ≠ ROLES_ADMIN) && (_ || _)); [done|].
  destruct (bool_decide (User.role caller ≠ ROLES_ADMIN) && is_defined _); [done|].
  unfold mbind, M_bind, Storage.updateTrip.
  by destruct (head _).
Qed.

(** C3. An update by a caller who is not an ADMIN, aimed at a trip whose
    stored status is COMPLETED or SETTLED, is answered with 403 whatever the
    validated payload holds, and the database is left as it was. *)
Theorem update_forbidden_on_closed_trip (req : Request) (caller : User.t)
    (input : Patch.t) (existingTrip : Trip.t) (db : Db) :
  user req = Some caller →
  User.role caller ≠ ROLES_ADMIN →
  api_trips_update_input_parse (body req) = Returned input →
  Storage.getTrip (params_id req) db = (Returned (Some existingTrip), db) →
  Trip.status existingTrip = TRIP_STATUS_COMPLETED
  ∨ Trip.status existingTrip = TRIP_STATUS_SETTLED →
  PUT_trip req db
  = (Returned (json 403 (Message "Managers cannot edit completed or settled trips.")), db).
Proof.
  intros Huser Hrole Hparse Hget Hstatus.
  rewrite (update_trip_unfold _ _ _ _ _ Huser Hparse Hget).
  rewrite (bool_decide_eq_true_2 _ Hrole).
  destruct Hstatus as [Hs|Hs]; rewrite (bool_decide_eq_true_2 _ Hs); simpl; [done|].
  by rewrite orb_true_r.
Qed.

(** C4. An update by a caller who is not an ADMIN whose validated payload
    carries a motorOwnerBhada value is answered with 403 whatever the status
    of the trip, and the database is left as it was; the same request by an
    ADMIN is answered with 200 and the updated trip, which holds the new
    value and is what the database then returns for that identifier. *)
Theorem update_bhada_forbidden_unless_admin (req : Request) (caller : User.t)
    (input : Patch.t) (existingTrip : Trip.t) (db : Db) :
  user req = Some caller →
  User.role caller ≠ ROLES_ADMIN →
  api_trips_update_input_parse (body req) = Returned input →
  Storage.getTrip (params_id req) db = (Returned (Some existingTrip), db) →
  is_defined (Patch.motorOwnerBhada input) = true →
  (∃ message, PUT_trip req db = (Returned (json 403 (Message message)), db))
  ∧ (∀ admin : User.t, User.role admin = ROLES_ADMIN →
       ∃ trip db',
         PUT_trip (mkRequest (Some admin) (params_id req) (query req) (body req) (year req)) db
         = (Returned (json 200 (TripJson trip)), db')
         ∧ Trip.motorOwnerBhada trip = Storage.stored (Patch.motorOwnerBhada input)
         ∧ Storage.getTrip (params_id req) db' = (Returned (Some trip), db')).
Proof.
  intros Huser Hrole Hparse Hget Hbhada. split.
  - rewrite (update_trip_unfold _ _ _ _ _ Huser Hparse Hget).
    rewrite (bool_decide_eq_true_2 _ Hrole), Hbhada. simpl.
    destruct (_ || _); eauto.
  - intros admin Hadmin.
    erewrite update_trip_unfold; [|reflexivity|exact Hparse|exact Hget].
    rewrite bool_decide_eq_false_2 by (intros Hne; by apply Hne).
    cbn [andb params_id].
    destruct (updateTrip_result (params_id req)
                (Patch.with_balances input
                   (update_motorOwnerBalance input existingTrip)
                   (update_partyBalance input existingTrip)) db)
      as (db' & Hupd & Hget').
    rewrite (getTrip_head _ _ _ Hget) in Hupd, Hget'.
    simpl in Hupd, Hget'. rewrite Hupd.
    eexists _, db'. split; [done|]. split; [|done].
    simpl. destruct (Patch.motorOwnerBhada input); done.
Qed.

(** The create handler with an authenticated caller and a payload that
    validates: one row is appended, under the next serial identifier. *)
Lemma create_trip_unfold (req : Request) (caller : User.t) (input : InsertTrip.t) (db : Db) :
  user req = Some caller →
  api_trips_create_input_parse (body req) = Returned input →
  let tripId := pretty (year req) +:+ "_" +:+ pretty (Z.of_nat (length (trips db)) + 1) in
  let trip :=
    Storage.new_row (trips_id_seq db + 1) tripId
      (InsertTrip.with_balances input
         (JString (balance_text (InsertTrip.motorOwnerBhada input)
                                (InsertTrip.motorOwnerAdvance input)))
         (JString (balance_text (InsertTrip.partyFreight input)
                                (InsertTrip.partyAdvance input)))) in
  POST_trip req db
  = (Returned (json 201 (TripJson trip)),
     {| users := users db; trips := (trips db ++ [trip])%list;
        trips_id_seq := trips_id_seq db + 1 |}).
Proof.
  intros Huser Hparse tripId trip.
  unfold create_trip, requireAuth. rewrite Huser.
  unfold catch_zod. apply try_catch_returned.
  rewrite Hparse. unfold of_outcome.
  erewrite bind_returned; [|reflexivity].
  destruct (getTrips_all_length db) as (all & Hall & Hlen).
  erewrite bind_returned; [|exact Hall].
  rewrite Hlen. reflexivity.
Qed.

(** C10. The create handler asks for an authenticated caller and nothing
    more: for any caller, whatever the role, a payload that validates is
    answered with 201 and stored as a new row that holds the supplied
    motorOwnerBhada (and the supplied status), and the outcome is the same
    for every other authenticated caller. *)
Theorem create_trip_ignores_role (req : Request) (caller : User.t)
    (input : InsertTrip.t) (db : Db) :
  user req = Some caller →
  api_trips_create_input_parse (body req) = Returned input →
  ∃ trip db',
    POST_trip req db = (Returned (json 201 (TripJson trip)), db')
    ∧ trips db' = (trips db ++ [trip])%list
    ∧ Trip.motorOwnerBhada trip = Storage.stored (InsertTrip.motorOwnerBhada input)
    ∧ Trip.status trip = default TRIP_STATUS_PENDING (InsertTrip.status input)
    ∧ ∀ other : User.t,
        POST_trip (mkRequest (Some other) (params_id req) (query req) (body req) (year req)) db
        = POST_trip req db.
Proof.
  intros Huser Hparse.
  pose proof (create_trip_unfold req caller input db Huser Hparse) as Hrun.
  cbv zeta in Hrun. eexists _, _. split; [exact Hrun|].
  split; [done|]. split; [done|]. split; [done|].
  intros other. rewrite Hrun.
  by rewrite (create_trip_unfold (mkRequest (Some other) _ _ _ _) other input db).
Qed.

(** C6. The code given to a new trip is the year of the request, an
    underscore and one more than the number of trips in the table, so two
    trips created one after the other in the same year get the codes
    year_n and year_(n+1), which differ. *)
Theorem sequential_trip_codes (req1 req2 : Request) (c1 c2 : User.t)
    (input1 input2 : InsertTrip.t) (db : Db) :
  user req1 = Some c1 →
  user req2 = Some c2 →
  api_trips_create_input_parse (body req1) = Returned input1 →
  api_trips_create_input_parse (body req2) = Returned input2 →
  year req2 = year req1 →
  let n := Z.of_nat (length (trips db)) + 1 in
  ∃ t1 db1 t2 db2,
    POST_trip req1 db = (Returned (json 201 (TripJson t1)), db1)
    ∧ Trip.tripId t1 = pretty (year req1) +:+ "_" +:+ pretty n
    ∧ POST_trip req2 db1 = (Returned (json 201 (TripJson t2)), db2)
    ∧ Trip.tripId t2 = pretty (year req1) +:+ "_" +:+ pretty (n + 1)
    ∧ Trip.tripId t1 ≠ Trip.tripId t2.
Proof.
  intros Hu1 Hu2 Hp1 Hp2 Hyear n.
  pose proof (create_trip_unfold req1 c1 input1 db Hu1 Hp1) as Hrun1.
  cbv zeta in Hrun1.
  eexists _, _, _, _. split; [exact Hrun1|]. split; [done|].
  split; [by apply (create_trip_unfold req2 c2 input2 _ Hu2 Hp2)|].
  cbn [Trip.tripId Storage.new_row trips]. rewrite length_app. cbn [length].
  replace (Z.of_nat (length (trips db) + 1)%nat + 1) with (n + 1) by (unfold n; lia).
  rewrite Hyear. split; [done|].
  intros Heq. apply (inj (String.app _)) in Heq. apply (inj (String.app _)) in Heq.
  apply (inj pretty) in Heq. lia.
Qed.
End Handlers.

(** ** Listing trips *)

Lemma sql_and_app {R} (c1 c2 : list (R → bool)) (r : R) :
  sql_and (c1 ++ c2) r = sql_and c1 r && sql_and c2 r.
Proof. unfold sql_and. apply forallb_app. Qed.

(** The pushed conditions, taken together, say that every supplied filter
    holds. *)
Lemma conditions_matches (filters : option Filters.t) (t : Trip.t) :
  sql_and (Storage.conditions filters) t ↔ matches filters t.
Proof.
  unfold Storage.conditions, matches.
  rewrite !sql_and_app, !andb_True.
  destruct (filters ≫= Filters.vehicleNumber) as [vn|];
    destruct (filters ≫= Filters.tripId) as [ti|];
    destruct (filters ≫= Filters.loadedAfter) as [d|];
    destruct (filters ≫= Filters.settled) as [[|]|];
    repeat case_bool_decide; subst; unfold sql_and; simpl;
    rewrite ?andb_True, ?bool_decide_spec;
    (split;
     [ intros; repeat split; intros; simplify_eq; tauto
     | intros (Hvn & Hti & Hd & Hs & Hns); repeat split; auto ]).
Qed.

Lemma filter_no_condition (l : list Trip.t) : filter (λ _ : Trip.t, Is_true true) l = l.
Proof. induction l as [|t l IH]; [done|]. rewrite filter_cons_True by done. by f_equal. Qed.

(** C5. [getTrips] returns the trips that satisfy every supplied filter,
    most recent loading date first.  With only the settlement filter given,
    [true] yields exactly the SETTLED trips and [false] exactly the trips
    with another status; with no filter every trip is returned. *)
Theorem getTrips_filters_and_order (db : Db) :
  (∀ filters, ∃ result,
      Storage.getTrips filters db = (Returned result, db)
      ∧ StronglySorted loaded_desc result
      ∧ ∀ t, t ∈ result ↔ t ∈ trips db ∧ matches filters t)
  ∧ (∃ result,
      Storage.getTrips (Some (Filters.mk None None None (Some true))) db = (Returned result, db)
      ∧ result ≡ₚ filter (λ t, Trip.status t = TRIP_STATUS_SETTLED) (trips db))
  ∧ (∃ result,
      Storage.getTrips (Some (Filters.mk None None None (Some false))) db = (Returned result, db)
      ∧ result ≡ₚ filter (λ t, Trip.status t ≠ TRIP_STATUS_SETTLED) (trips db))
  ∧ (∃ result,
      Storage.getTrips (Some (Filters.mk None None None None)) db = (Returned result, db)
      ∧ result ≡ₚ trips db)
  ∧ (∃ result,
      Storage.getTrips None db = (Returned result, db) ∧ result ≡ₚ trips db).
Proof.
  split; [|repeat split].
  - intros filters. eexists. split; [reflexivity|]. split.
    + apply StronglySorted_merge_sort; apply _.
    + intros t. rewrite merge_sort_Permutation, list_elem_of_filter.
      rewrite conditions_matches. apply and_comm.
  - eexists. split; [reflexivity|]. rewrite merge_sort_Permutation.
    erewrite list_filter_iff; [reflexivity|].
    intros t. unfold sql_and. simpl. rewrite andb_True, bool_decide_spec.
    split; [by intros [? _]|by split].
  - eexists. split; [reflexivity|]. rewrite merge_sort_Permutation.
    erewrite list_filter_iff; [reflexivity|].
    intros t. unfold sql_and. simpl. rewrite andb_True, bool_decide_spec.
    split; [by intros [? _]|by split].
  - eexists. split; [reflexivity|]. rewrite merge_sort_Permutation.
    simpl. by rewrite filter_no_condition.
  - eexists. split; [reflexivity|]. rewrite merge_sort_Permutation.
    simpl. by rewrite filter_no_condition.
Qed.

(** ** Motor-owner analytics *)

Section OwnerAnalytics.
Context `{JsNumber}.

(** The rows of the report, as a function of the hired-vehicle trips
    alone. *)
Lemma getMotorOwnerAnalytics_rows (db : Db) :
  let market := filter (λ t, Trip.vehicleType t = "MARKET") (trips db) in
  Storage.getMotorOwnerAnalytics db
  = (Returned
       ((λ k,
           let group := filter (λ t, Trip.motorOwnerName t = k) market in
           {| MotorOwnerAnalytics.name := js_or (js k) (JString "Unknown");
              MotorOwnerAnalytics.tripsDone := Number_row (sql_count group);
              MotorOwnerAnalytics.totalBhada :=
                Number_row (sql_sum (Trip.motorOwnerBhada <$> group));
              MotorOwnerAnalytics.paid :=
                Number_row (sql_sum (Trip.motorOwnerAdvance <$> group));
              MotorOwnerAnalytics.balance :=
                Number_row (sql_sum (Trip.motorOwnerBalance <$> group)) |})
        <$> remove_dups (Trip.motorOwnerName <$> market)), db).
Proof.
  intros market. unfold Storage.getMotorOwnerAnalytics, select, sql_group_by.
  cbv zeta. fold market. by rewrite <- !list_fmap_compose.
Qed.

End OwnerAnalytics.

(** ** The ledger's [updateTrip] *)






Section UpdateLedger.
Context `{JsNumber} {Body : Type}.
Variable api_trips_update_input_parse : Body → Outcome Patch.t.

End UpdateLedger.

(** ** Logging in *)

Lemma hex_char_digit (d : N) :
  (d < 16)%N → hex_digit (hex_char d) = Some d ∧ hex_char d ≠ ":"%char.
Proof.
  intros Hd.
  assert (Forall (λ d, hex_digit (hex_char d) = Some d ∧ hex_char d ≠ ":"%char)
            (N.of_nat <$> seq 0 16)) as Hall.
  { simpl. repeat (apply Forall_cons_2; [split; [reflexivity|discriminate]|]).
    apply Forall_nil_2. }
  rewrite list.Forall_forall in Hall. apply Hall.
  apply list_elem_of_fmap. exists (N.to_nat d). split; [lia|]. apply elem_of_seq. lia.
Qed.

Lemma split_on_colon (s1 s2 : string) :
  no_colon s1 → split_on ":" (s1 +:+ String ":" s2) = s1 :: split_on ":" s2.
Proof.
  unfold no_colon. induction s1 as [|c s1 IH]; simpl.
  - intros _. reflexivity.
  - intros Hc. simpl in Hc. inversion_clear Hc as [|? ? Hc1 Hs1].
    rewrite bool_decide_eq_false_2 by done. by rewrite IH.
Qed.

Lemma split_on_no_colon (s : string) : no_colon s → split_on ":" s = [s].
Proof.
  unfold no_colon. induction s as [|c s IH]; simpl; [done|].
  intros Hc. simpl in Hc. inversion_clear Hc as [|? ? Hc1 Hs].
  rewrite bool_decide_eq_false_2 by done. by rewrite IH.
Qed.

Lemma hex_no_colon (buffer : list N) : bytes buffer → no_colon (Buffer_toString_hex buffer).
Proof.
  unfold bytes, no_colon. induction 1 as [|b buffer Hb Hbuffer IH]; simpl; [constructor|].
  repeat apply Forall_cons_2; [| |done].
  - apply hex_char_digit. apply N.Div0.div_lt_upper_bound. lia.
  - apply hex_char_digit. by apply N.mod_lt.
Qed.

(** Decoding the hex print of a buffer gives the buffer back. *)
Lemma hex_round_trip (buffer : list N) :
  bytes buffer → Buffer_from_hex (Buffer_toString_hex buffer) = buffer.
Proof.
  unfold bytes. induction 1 as [|b buffer Hb Hbuffer IH]; simpl; [done|].
  destruct (hex_char_digit (b / 16)) as [-> _];
    [apply N.Div0.div_lt_upper_bound; lia|].
  destruct (hex_char_digit (b mod 16)) as [-> _]; [by apply N.mod_lt|].
  rewrite IH. f_equal. rewrite (N.div_mod b 16) at 3 by done. lia.
Qed.

Section Login.
Context `{JsNumber}.
Variable scrypt : string → string → list N.

(** The login route on a request that carries both credentials: what the
    verify callback found decides the answer. *)
Lemma login_unfold (username password : string) (db : Db) :
  username ≠ "" → password ≠ "" →
  login scrypt (Some username) (Some password) db
  = match head (filter (λ u, User.username u = username) (users db)) with
    | None => (Returned (mkLogin (sendStatus 401) None), db)
    | Some u =>
        match comparePasswords scrypt password (User.password u) with
        | Returned true => (Returned (mkLogin (json 200 (UserJson u)) (Some (User.id u))), db)
        | Returned false => (Returned (mkLogin (sendStatus 401) None), db)
        | Thrown err => (Thrown err, db)
        end
    end.
Proof.
  intros Hu Hp. unfold login.
  rewrite !bool_decide_eq_false_2 by done. cbn [orb].
  unfold verify, try_catch, mbind, M_bind, Storage.getUserByUsername, select, of_outcome.
  destruct (head _) as [u|]; [|done].
  by destruct (comparePasswords scrypt password (User.password u)) as [[|]|].
Qed.

(** X5. A password verifies against the hash [hashPassword] made of it,
    and a password whose derived key differs does not. *)
Lemma comparePasswords_hashPassword (randomBytes16 : list N) (password : string) :
  bytes randomBytes16 →
  bytes (scrypt password (Buffer_toString_hex randomBytes16)) →
  comparePasswords scrypt password (hashPassword scrypt randomBytes16 password)
  = Returned true
  ∧ ∀ other,
      length (scrypt other (Buffer_toString_hex randomBytes16))
      = length (scrypt password (Buffer_toString_hex randomBytes16)) →
      scrypt other (Buffer_toString_hex randomBytes16)
      ≠ scrypt password (Buffer_toString_hex randomBytes16) →
      comparePasswords scrypt other (hashPassword scrypt randomBytes16 password)
      = Returned false.
Proof.
  intros Hsalt Hkey.
  assert (∀ supplied,
            comparePasswords scrypt supplied (hashPassword scrypt randomBytes16 password)
            = timingSafeEqual (scrypt password (Buffer_toString_hex randomBytes16))
                              (scrypt supplied (Buffer_toString_hex randomBytes16))) as Hcmp.
  { intros supplied. unfold comparePasswords, hashPassword. cbv zeta.
    change (":" +:+ ?s) with (String ":" s).
    rewrite split_on_colon by by apply hex_no_colon.
    rewrite split_on_no_colon by by apply hex_no_colon.
    by rewrite hex_round_trip. }
  split.
  - rewrite Hcmp. unfold timingSafeEqual.
    rewrite decide_True by done. by rewrite bool_decide_eq_true_2.
  - intros other Hlen Hne. rewrite Hcmp. unfold timingSafeEqual.
    rewrite decide_True by done. by rewrite bool_decide_eq_false_2.
Qed.

(** A request that lacks a username or a password is answered with 400,
    whoever is registered. *)
Lemma login_missing_credentials (username password : option string) (db : Db) :
  username = None ∨ username = Some "" ∨ password = None ∨ password = Some "" →
  login scrypt username password db = (Returned (mkLogin (sendStatus 400) None), db).
Proof.
  unfold login. intros [ -> | [ -> | [ -> | -> ] ] ]; try done.
  - by destruct password.
  - by destruct username.
  - destruct username as [u|]; [|done]. by rewrite orb_true_r.
Qed.

(** C9. For a login request that carries a username and a password: when
    the user exists and the password verifies, the answer is 200 with the
    user and a session holding the user's identifier; when the username is
    unknown, or known with a password that does not verify, the answer is
    401 with the reason phrase and no session, and it is the same answer in
    both cases, so a failed attempt does not tell whether the username
    exists. *)
Theorem login_outcomes (username password : string) (db : Db) :
  username ≠ "" →
  password ≠ "" →
  (∀ u, Storage.getUserByUsername username db = (Returned (Some u), db) →
        comparePasswords scrypt password (User.password u) = Returned true →
        login scrypt (Some username) (Some password) db
        = (Returned (mkLogin (json 200 (UserJson u)) (Some (User.id u))), db))
  ∧ (Storage.getUserByUsername username db = (Returned None, db) →
     login scrypt (Some username) (Some password) db
     = (Returned (mkLogin (mkResponse 401 (Text "Unauthorized")) None), db))
  ∧ (∀ u, Storage.getUserByUsername username db = (Returned (Some u), db) →
          comparePasswords scrypt password (User.password u) = Returned false →
          login scrypt (Some username) (Some password) db
          = (Returned (mkLogin (mkResponse 401 (Text "Unauthorized")) None), db))
  ∧ (∀ db2 u2,
       Storage.getUserByUsername username db = (Returned None, db) →
       Storage.getUserByUsername username db2 = (Returned (Some u2), db2) →
       comparePasswords scrypt password (User.password u2) = Returned false →
       (login scrypt (Some username) (Some password) db).1
       = (login scrypt (Some username) (Some password) db2).1).
Proof.
  intros Hu Hp.
  assert (∀ d o, Storage.getUserByUsername username d = (Returned o, d) →
                 head (filter (λ u, User.username u = username) (users d)) = o) as Hhead.
  { intros d o Hget. unfold Storage.getUserByUsername, select in Hget. congruence. }
  repeat split.
  - intros u Hget Hcmp. rewrite login_unfold by done.
    by rewrite (Hhead _ _ Hget), Hcmp.
  - intros Hget. rewrite login_unfold by done. by rewrite (Hhead _ _ Hget).
  - intros u Hget Hcmp. rewrite login_unfold by done.
    by rewrite (Hhead _ _ Hget), Hcmp.
  - intros db2 u2 Hget Hget2 Hcmp. rewrite !login_unfold by done.
    by rewrite (Hhead _ _ Hget), (Hhead _ _ Hget2), Hcmp.
Qed.
End Login.

(** ** Balances *)

Section Balances.
Context `{JsNumber} {Body : Type}.
Variable api_trips_create_input_parse : Body → Outcome InsertTrip.t.
Variable api_trips_update_input_parse : Body → Outcome Patch.t.

Lemma Number_or0_stored (v : JsVal) : Number_or0 (js (Storage.stored v)) = Number_or0 v.
Proof. by destruct v. Qed.

Lemma balance_text_stored (a b : JsVal) :
  balance_text (js (Storage.stored a)) (js (Storage.stored b)) = balance_text a b.
Proof. unfold balance_text. by rewrite !Number_or0_stored. Qed.

(** What the update handler does, in the vocabulary of the rule: the test
    for recomputing is truthiness, the choice of each operand is by having
    a value. *)
Lemma update_balance_by_truthiness
    (new_amount new_advance old_amount old_advance old_balance : JsVal) :
  (if truthy (js_or new_amount new_advance)
   then JString (balance_text (js_nullish new_amount old_amount)
                              (js_nullish new_advance old_advance))
   else old_balance)
  = if truthy new_amount || truthy new_advance
    then JString (balance_text (if has_value new_amount then new_amount else old_amount)
                               (if has_value new_advance then new_advance else old_advance))
    else old_balance.
Proof.
  unfold js_or. destruct (truthy new_amount) eqn:Ha; simpl.
  - rewrite Ha. by destruct new_amount, new_advance.
  - by destruct new_amount, new_advance.
Qed.

Lemma recompute_on_filled (new_amount new_advance old_amount old_advance old_balance : JsVal) :
  absent_or_filled new_amount →
  absent_or_filled new_advance →
  (if truthy (js_or new_amount new_advance)
   then JString (balance_text (js_nullish new_amount old_amount)
                              (js_nullish new_advance old_advance))
   else old_balance)
  = recompute_when_present is_defined
      new_amount new_advance old_amount old_advance old_balance.
Proof.
  unfold absent_or_filled, recompute_when_present, js_or.
  intros [->|Ha] [->|Hb].
  - reflexivity.
  - destruct new_advance as [| |s]; try discriminate Hb.
    change (truthy JUndefined) with false. cbv iota. by rewrite Hb.
  - destruct new_amount as [| |s]; try discriminate Ha.
    rewrite Ha. cbv iota. by rewrite Ha.
  - destruct new_amount as [| |s]; try discriminate Ha.
    rewrite Ha. cbv iota. rewrite Ha.
    by destruct new_advance.
Qed.

(** X1. On payloads whose amounts are either left out or non-empty text
    the update handler follows the rule of the specification. *)
Lemma update_balance_follows_rule (input : Patch.t) (existingTrip : Trip.t) :
  absent_or_filled (Patch.motorOwnerBhada input) →
  absent_or_filled (Patch.motorOwnerAdvance input) →
  absent_or_filled (Patch.partyFreight input) →
  absent_or_filled (Patch.partyAdvance input) →
  update_motorOwnerBalance input existingTrip
  = rule_motorOwnerBalance is_defined input existingTrip
  ∧ update_partyBalance input existingTrip
    = rule_partyBalance is_defined input existingTrip.
Proof.
  intros Hb Ha Hf Hp. split; by apply recompute_on_filled.
Qed.

(** X2. A trip as the create handler stores it is balanced, and the
    balances found in the payload play no part. *)
Lemma create_trip_balanced (req : Request) (caller : User.t) (input : InsertTrip.t) (db : Db) :
  user req = Some caller →
  api_trips_create_input_parse (body req) = Returned input →
  ∃ trip db',
    create_trip api_trips_create_input_parse req db = (Returned (json 201 (TripJson trip)), db')
    ∧ balanced trip
    ∧ Trip.partyBalance trip
      = Some (balance_text (InsertTrip.partyFreight input) (InsertTrip.partyAdvance input))
    ∧ Trip.motorOwnerBalance trip
      = Some (balance_text (InsertTrip.motorOwnerBhada input)
                           (InsertTrip.motorOwnerAdvance input)).
Proof.
  intros Huser Hparse.
  pose proof (create_trip_unfold _ req caller input db Huser Hparse) as Hrun.
  cbv zeta in Hrun. eexists _, _. split; [exact Hrun|].
  unfold balanced. simpl. by rewrite !balance_text_stored.
Qed.

Lemma stored_balance_of_merge (new_amount new_advance : JsVal)
    (old_amount old_advance old_balance : option string) :
  absent_or_filled new_amount →
  absent_or_filled new_advance →
  old_balance = Some (balance_text (js old_amount) (js old_advance)) →
  Storage.set_nullable
    (if truthy (js_or new_amount new_advance)
     then JString (balance_text (js_nullish new_amount (js old_amount))
                                (js_nullish new_advance (js old_advance)))
     else js old_balance)
    old_balance
  = Some (balance_text (js (Storage.set_nullable new_amount old_amount))
                       (js (Storage.set_nullable new_advance old_advance))).
Proof.
  unfold absent_or_filled, js_or.
  intros [->|Ha] [->|Hb] ->.
  - reflexivity.
  - destruct new_advance as [| |s]; try discriminate Hb.
    change (truthy JUndefined) with false. cbv iota. by rewrite Hb.
  - destruct new_amount as [| |s]; try discriminate Ha.
    rewrite Ha. cbv iota. rewrite Ha. reflexivity.
  - destruct new_amount as [| |s]; try discriminate Ha.
    rewrite Ha. cbv iota. rewrite Ha.
    by destruct new_advance.
Qed.

(** X3. An update whose amounts are left out or non-empty text keeps a
    balanced trip balanced. *)
Lemma update_trip_keeps_balanced (input : Patch.t) (existingTrip : Trip.t) :
  absent_or_filled (Patch.motorOwnerBhada input) →
  absent_or_filled (Patch.motorOwnerAdvance input) →
  absent_or_filled (Patch.partyFreight input) →
  absent_or_filled (Patch.partyAdvance input) →
  balanced existingTrip →
  balanced (Storage.set_row
              (Patch.with_balances input
                 (update_motorOwnerBalance input existingTrip)
                 (update_partyBalance input existingTrip))
              existingTrip).
Proof.
  intros Hb Ha Hf Hp [Hpb Hmb]. split; simpl.
  - by apply stored_balance_of_merge.
  - by apply stored_balance_of_merge.
Qed.

End Balances.

(** ** The handlers at work on the sample ledger *)

(** The sample trips are balanced to begin with. *)
Lemma sample_trips_balanced :
  balanced (H:=IntNumber.int_number) Sample.pending
  ∧ balanced (H:=IntNumber.int_number) Sample.settled.
Proof. by repeat split. Qed.

(** C1. The update handler does not follow the rule when an amount is
    present in the payload but falsy.  With the advance of the motor owner
    sent as the empty string the stored balance of 600 is carried forward,
    although an input of that balance is present, whether present is read as
    "not undefined" or as "neither undefined nor null"; the rule recomputes
    700 - 0 = 700.  The same happens to the party balance, where 800 is kept
    and the rule gives 1000, and with [null] in place of the empty string. *)
Theorem update_skips_recompute_for_falsy_amount :
  is_defined (Patch.motorOwnerAdvance (Sample.set_owner_advance (JString ""))) = true
  ∧ has_value (Patch.motorOwnerAdvance (Sample.set_owner_advance (JString ""))) = true
  ∧ update_motorOwnerBalance (H:=IntNumber.int_number)
      (Sample.set_owner_advance (JString "")) Sample.pending
    = JString "600"
  ∧ rule_motorOwnerBalance (H:=IntNumber.int_number) is_defined
      (Sample.set_owner_advance (JString "")) Sample.pending
    = JString "700"
  ∧ rule_motorOwnerBalance (H:=IntNumber.int_number) has_value
      (Sample.set_owner_advance (JString "")) Sample.pending
    = JString "700"
  ∧ update_partyBalance (H:=IntNumber.int_number)
      (Sample.set_party_advance (JString "")) Sample.pending
    = JString "800"
  ∧ rule_partyBalance (H:=IntNumber.int_number) is_defined
      (Sample.set_party_advance (JString "")) Sample.pending
    = JString "1000"
  ∧ rule_partyBalance (H:=IntNumber.int_number) has_value
      (Sample.set_party_advance (JString "")) Sample.pending
    = JString "1000"
  ∧ update_motorOwnerBalance (H:=IntNumber.int_number)
      (Sample.set_owner_advance JNull) Sample.pending
    = JString "600"
  ∧ rule_motorOwnerBalance (H:=IntNumber.int_number) is_defined
      (Sample.set_owner_advance JNull) Sample.pending
    = JString "700".
Proof. repeat split; reflexivity. Qed.


(** A manager may not touch the settled sample trip, whatever the payload. *)
Lemma update_forbidden_on_closed_trip_witness :
  update_trip (H:=IntNumber.int_number) Returned
    (Sample.put Sample.manager 2 (Sample.set_vehicle "MH14CD0000")) Sample.db
  = (Returned (json 403 (Message "Managers cannot edit completed or settled trips.")),
     Sample.db).
Proof.
  apply (update_forbidden_on_closed_trip Returned
           (Sample.put Sample.manager 2 (Sample.set_vehicle "MH14CD0000"))
           Sample.manager (Sample.set_vehicle "MH14CD0000") Sample.settled Sample.db).
  - reflexivity.
  - discriminate.
  - reflexivity.
  - reflexivity.
  - right. reflexivity.
Defined.

(** A manager may not set the hire of the pending sample trip; an admin
    may. *)
Lemma update_bhada_forbidden_unless_admin_witness :
  (∃ message,
     update_trip (H:=IntNumber.int_number) Returned
       (Sample.put Sample.manager 1 (Sample.set_bhada (JString "900"))) Sample.db
     = (Returned (json 403 (Message message)), Sample.db))
  ∧ (∀ admin : User.t, User.role admin = ROLES_ADMIN →
       ∃ trip db',
         update_trip (H:=IntNumber.int_number) Returned
           (Sample.put admin 1 (Sample.set_bhada (JString "900"))) Sample.db
         = (Returned (json 200 (TripJson trip)), db')
         ∧ Trip.motorOwnerBhada trip = Some "900"
         ∧ Storage.getTrip 1 db' = (Returned (Some trip), db')).
Proof.
  apply (update_bhada_forbidden_unless_admin Returned
           (Sample.put Sample.manager 1 (Sample.set_bhada (JString "900")))
           Sample.manager (Sample.set_bhada (JString "900")) Sample.pending Sample.db).
  - reflexivity.
  - discriminate.
  - reflexivity.
  - reflexivity.
  - reflexivity.
Defined.

(** A manager creates a trip with a hire amount of 600. *)
Lemma create_trip_ignores_role_witness :
  ∃ trip db',
    create_trip (H:=IntNumber.int_number) Returned
      (Sample.post Sample.manager Sample.new_trip) Sample.db
    = (Returned (json 201 (TripJson trip)), db')
    ∧ trips db' = (trips Sample.db ++ [trip])%list
    ∧ Trip.motorOwnerBhada trip = Some "600"
    ∧ Trip.status trip = TRIP_STATUS_PENDING
    ∧ ∀ other : User.t,
        create_trip (H:=IntNumber.int_number) Returned
          (mkRequest (Some other) 0 None Sample.new_trip 2024) Sample.db
        = create_trip (H:=IntNumber.int_number) Returned
            (Sample.post Sample.manager Sample.new_trip) Sample.db.
Proof.
  apply (create_trip_ignores_role Returned
           (Sample.post Sample.manager Sample.new_trip) Sample.manager Sample.new_trip Sample.db).
  - reflexivity.
  - reflexivity.
Defined.

(** Two trips created in 2024 on top of the two sample trips get the codes
    2024_3 and 2024_4. *)
Lemma sequential_trip_codes_witness :
  ∃ t1 db1 t2 db2,
    create_trip (H:=IntNumber.int_number) Returned
      (Sample.post Sample.manager Sample.new_trip) Sample.db
    = (Returned (json 201 (TripJson t1)), db1)
    ∧ Trip.tripId t1 = "2024_3"
    ∧ create_trip (H:=IntNumber.int_number) Returned
        (Sample.post Sample.admin Sample.new_trip) db1
      = (Returned (json 201 (TripJson t2)), db2)
    ∧ Trip.tripId t2 = "2024_4"
    ∧ Trip.tripId t1 ≠ Trip.tripId t2.
Proof.
  apply (sequential_trip_codes Returned
           (Sample.post Sample.manager Sample.new_trip)
           (Sample.post Sample.admin Sample.new_trip)
           Sample.manager Sample.admin Sample.new_trip Sample.new_trip Sample.db).
  - reflexivity.
  - reflexivity.
  - reflexivity.
  - reflexivity.
  - reflexivity.
Defined.

(** The sample admin logs in with the right password; a wrong password and
    an unknown username are both answered with 401, and the answer to the
    same wrong credentials is the same whether or not the admin exists. *)
Lemma login_outcomes_witness :
  login (H:=IntNumber.int_number) Sample.toy_scrypt (Some "admin") (Some "admin123") Sample.db
  = (Returned (mkLogin (json 200 (UserJson Sample.admin)) (Some 1)), Sample.db)
  ∧ login (H:=IntNumber.int_number) Sample.toy_scrypt (Some "nobody") (Some "admin123") Sample.db
    = (Returned (mkLogin (mkResponse 401 (Text "Unauthorized")) None), Sample.db)
  ∧ login (H:=IntNumber.int_number) Sample.toy_scrypt (Some "admin") (Some "letmein") Sample.db
    = (Returned (mkLogin (mkResponse 401 (Text "Unauthorized")) None), Sample.db)
  ∧ (login (H:=IntNumber.int_number) Sample.toy_scrypt (Some "admin") (Some "letmein")
       Sample.nobody).1
    = (login (H:=IntNumber.int_number) Sample.toy_scrypt (Some "admin") (Some "letmein")
         Sample.db).1.
Proof.
  split; [|split; [|split]].
  - apply (login_outcomes Sample.toy_scrypt "admin" "admin123" Sample.db).
    + discriminate.
    + discriminate.
    + reflexivity.
    + reflexivity.
  - apply (login_outcomes Sample.toy_scrypt "nobody" "admin123" Sample.db).
    + discriminate.
    + discriminate.
    + reflexivity.
  - apply (login_outcomes Sample.toy_scrypt "admin" "letmein" Sample.db) with Sample.admin.
    + discriminate.
    + discriminate.
    + reflexivity.
    + reflexivity.
  - apply (login_outcomes Sample.toy_scrypt "admin" "letmein" Sample.nobody) with Sample.admin.
    + discriminate.
    + discriminate.
    + reflexivity.
    + reflexivity.
    + reflexivity.
Defined.


(** The settlement filter on the larger sample ledger, most recent first. *)
Example getTrips_settled_on_fleet :
  Storage.getTrips (Some (Filters.mk None None None (Some true))) Sample.fleet
  = (Returned [Sample.second_singh; Sample.settled], Sample.fleet)
  ∧ Storage.getTrips (Some (Filters.mk None None None (Some false))) Sample.fleet
    = (Returned [Sample.unnamed; Sample.pending], Sample.fleet)
  ∧ Storage.getTrips None Sample.fleet
    = (Returned [Sample.second_singh; Sample.unnamed; Sample.settled; Sample.pending],
       Sample.fleet)
  ∧ Storage.getTrips (Some (Filters.mk (Some "mh12") None (Some 1700000000001) (Some true)))
      Sample.fleet
    = (Returned [Sample.second_singh], Sample.fleet).
Proof. repeat split; reflexivity. Qed.

(** The motor-owner report of the larger sample ledger: the owned vehicle is
    left out, Singh has two trips, and the unnamed owner shows as Unknown. *)
Example motor_owner_analytics_on_fleet :
  Storage.getMotorOwnerAnalytics (H:=IntNumber.int_number) Sample.fleet
  = (Returned
       [ MotorOwnerAnalytics.mk (H:=IntNumber.int_number)
           (JString "Unknown") (Some 1) (Some 300) (Some 0) (Some 300);
         MotorOwnerAnalytics.mk (H:=IntNumber.int_number)
           (JString "Singh") (Some 2) (Some 1200) (Some 600) (Some 600) ],
     Sample.fleet).
Proof. reflexivity. Qed.

(** Setting the advance of the motor owner to 250 on the pending sample
    trip follows the rule: the balance becomes 700 - 250. *)
Lemma update_balance_follows_rule_witness :
  update_motorOwnerBalance (H:=IntNumber.int_number)
    (Sample.set_owner_advance (JString "250")) Sample.pending
  = rule_motorOwnerBalance (H:=IntNumber.int_number) is_defined
      (Sample.set_owner_advance (JString "250")) Sample.pending
  ∧ update_partyBalance (H:=IntNumber.int_number)
      (Sample.set_owner_advance (JString "250")) Sample.pending
    = rule_partyBalance (H:=IntNumber.int_number) is_defined
        (Sample.set_owner_advance (JString "250")) Sample.pending.
Proof.
  apply (update_balance_follows_rule (H:=IntNumber.int_number)
           (Sample.set_owner_advance (JString "250")) Sample.pending).
  - left. reflexivity.
  - right. reflexivity.
  - left. reflexivity.
  - left. reflexivity.
Defined.

(** The trip created from the sample payload is balanced, whatever balances
    the payload carried. *)
Lemma create_trip_balanced_witness :
  ∃ trip db',
    create_trip (H:=IntNumber.int_number) Returned
      (Sample.post Sample.manager Sample.new_trip) Sample.db
    = (Returned (json 201 (TripJson trip)), db')
    ∧ balanced (H:=IntNumber.int_number) trip
    ∧ Trip.partyBalance trip = Some "750"
    ∧ Trip.motorOwnerBalance trip = Some "600".
Proof.
  apply (create_trip_balanced (H:=IntNumber.int_number) Returned
           (Sample.post Sample.manager Sample.new_trip) Sample.manager Sample.new_trip
           Sample.db).
  - reflexivity.
  - reflexivity.
Defined.

(** Raising the party advance of the pending sample trip to 300 keeps it
    balanced. *)
Lemma update_trip_keeps_balanced_witness :
  balanced (H:=IntNumber.int_number)
    (Storage.set_row
       (Patch.with_balances (Sample.set_party_advance (JString "300"))
          (update_motorOwnerBalance (H:=IntNumber.int_number)
             (Sample.set_party_advance (JString "300")) Sample.pending)
          (update_partyBalance (H:=IntNumber.int_number)
             (Sample.set_party_advance (JString "300")) Sample.pending))
       Sample.pending).
Proof.
  apply (update_trip_keeps_balanced (H:=IntNumber.int_number)
           (Sample.set_party_advance (JString "300")) Sample.pending).
  - left. reflexivity.
  - left. reflexivity.
  - left. reflexivity.
  - right. reflexivity.
  - split; reflexivity.
Defined.

(** The stored password of the sample admin is the hash of admin123 under
    the salt 5a, so admin123 verifies against it and letmein does not. *)
Lemma comparePasswords_hashPassword_witness :
  hashPassword Sample.toy_scrypt [90%N] "admin123" = User.password Sample.admin
  ∧ comparePasswords Sample.toy_scrypt "admin123" (hashPassword Sample.toy_scrypt [90%N] "admin123")
    = Returned true
  ∧ comparePasswords Sample.toy_scrypt "letmein" (hashPassword Sample.toy_scrypt [90%N] "admin123")
    = Returned false.
Proof.
  split; [reflexivity|]. split.
  - apply (comparePasswords_hashPassword Sample.toy_scrypt [90%N] "admin123").
    + repeat constructor.
    + repeat constructor.
  - apply (comparePasswords_hashPassword Sample.toy_scrypt [90%N] "admin123").
    + repeat constructor.
    + repeat constructor.
    + reflexivity.
    + discriminate.
Defined.

(** * Further properties of the handlers *)

(** ** What the trip routes change, and when *)

Lemma fmap_update_keeps {A} (g : Trip.t → A) (id : Z) (f : Trip.t → Trip.t)
    (rows : list Trip.t) :
  (∀ t, g (f t) = g t) →
  g <$> ((λ t, if decide (Trip.id t = id) then f t else t) <$> rows) = g <$> rows.
Proof.
  intros Hg. rewrite <- list_fmap_compose. apply list_fmap_ext.
  intros i t _. simpl. by destruct (decide _).
Qed.

Lemma head_filter_app_found {A} (P : A → Prop) `{∀ x, Decision (P x)} (l k : list A) (x : A) :
  head (filter P l) = Some x → head (filter P (l ++ k)%list) = Some x.
Proof.
  intros Hx. rewrite list.filter_app. by destruct (filter P l).
Qed.

Lemma filter_none {A} (P : A → Prop) `{∀ x, Decision (P x)} (l : list A) :
  (∀ x, x ∈ l → ¬ P x) → filter P l = [].
Proof.
  intros Hl. induction l as [|y l IH]; [done|].
  rewrite filter_cons_False by (apply Hl; left).
  apply IH. intros x Hx. apply Hl. by right.
Qed.

Section TripRoutes.
Context `{JsNumber} {Body : Type}.
Variable api_trips_create_input_parse : Body → Outcome InsertTrip.t.
Variable api_trips_update_input_parse : Body → Outcome Patch.t.

Abbreviation PUT := (update_trip api_trips_update_input_parse).
Abbreviation POST := (create_trip api_trips_create_input_parse).

(** Every run of the update handler is of one of two kinds: a refusal,
    which leaves the database as it was, or a 200 that carries the merged
    row. *)
Lemma update_trip_inv (req : Request) (db : Db) :
  (∃ o, PUT req db = (o, db) ∧ ∀ r, o = Returned r → statusCode r ≠ 200)
  ∨ (∃ caller input existingTrip,
       user req = Some caller
       ∧ api_trips_update_input_parse (body req) = Returned input
       ∧ head (filter (λ t, Trip.id t = params_id req) (trips db)) = Some existingTrip
       ∧ let patch :=
           Patch.with_balances input
             (update_motorOwnerBalance input existingTrip)
             (update_partyBalance input existingTrip) in
         PUT req db
         = (Returned (json 200 (TripJson (Storage.set_row patch existingTrip))),
            {| users := users db;
               trips := (λ t, if decide (Trip.id t = params_id req)
                              then Storage.set_row patch t else t) <$> trips db;
               trips_id_seq := trips_id_seq db |})).
Proof.
  destruct (user req) as [caller|] eqn:Huser; cycle 1.
  { left. eexists. unfold update_trip, requireAuth. rewrite Huser.
    split; [reflexivity|]. by intros r [= <-]. }
  destruct (api_trips_update_input_parse (body req)) as [input|e] eqn:Hparse; cycle 1.
  { left. unfold update_trip, requireAuth. rewrite Huser.
    unfold catch_zod, try_catch, of_outcome. rewrite Hparse.
    unfold mbind, M_bind. destruct e; eexists; (split; [reflexivity|]); by intros r [= <-]. }
  destruct (head (filter (λ t, Trip.id t = params_id req) (trips db)))
    as [existingTrip|] eqn:Hhead; cycle 1.
  { left. eexists. unfold update_trip, requireAuth. rewrite Huser.
    unfold catch_zod, try_catch, of_outcome. rewrite Hparse.
    unfold mbind, M_bind, Storage.getTrip, select. rewrite Hhead.
    split; [reflexivity|]. by intros r [= <-]. }
  assert (Storage.getTrip (params_id req) db = (Returned (Some existingTrip), db)) as Hget.
  { unfold Storage.getTrip, select. by rewrite Hhead. }
  rewrite (update_trip_unfold _ _ _ _ _ _ Huser Hparse Hget).
  destruct (bool_decide (User.role caller ≠ ROLES_ADMIN) && (_ || _)).
  { left. eexists. split; [reflexivity|]. by intros r [= <-]. }
  destruct (bool_decide (User.role caller ≠ ROLES_ADMIN) && is_defined _).
  { left. eexists. split; [reflexivity|]. by intros r [= <-]. }
  right. exists caller, input, existingTrip. repeat (split; [done|]).
  cbv zeta. unfold Storage.updateTrip. cbv zeta.
  rewrite head_filter_update by done. by rewrite Hhead.
Qed.


(** Every run of the create handler is a refusal that leaves the database
    as it was, or a 201 that appends one row under the next identifier. *)
Lemma create_trip_inv (req : Request) (db : Db) :
  (∃ o, POST req db = (o, db) ∧ ∀ r, o = Returned r → statusCode r ≠ 201)
  ∨ (∃ trip,
       Trip.id trip = trips_id_seq db + 1
       ∧ Trip.tripId trip
         = pretty (year req) +:+ "_" +:+ pretty (Z.of_nat (length (trips db)) + 1)
       ∧ POST req db
         = (Returned (json 201 (TripJson trip)),
            {| users := users db; trips := (trips db ++ [trip])%list;
               trips_id_seq := trips_id_seq db + 1 |})).
Proof.
  destruct (user req) as [caller|] eqn:Huser; cycle 1.
  { left. eexists. unfold create_trip, requireAuth. rewrite Huser.
    split; [reflexivity|]. by intros r [= <-]. }
  destruct (api_trips_create_input_parse (body req)) as [input|e] eqn:Hparse; cycle 1.
  { left. unfold create_trip, requireAuth. rewrite Huser.
    unfold catch_zod, try_catch, of_outcome. rewrite Hparse.
    unfold mbind, M_bind. destruct e; eexists; (split; [reflexivity|]); by intros r [= <-]. }
  right. eexists. split; [|split; [|apply (create_trip_unfold _ req caller input db Huser Hparse)]].
  - reflexivity.
  - reflexivity.
Qed.

(** X7. A payload the schema rejects is answered with 400, the message and
    the field of the first issue, before the ledger is consulted: whether
    the addressed trip exists, whatever its status and whoever calls, and
    the database is left as it was.  Any other error of the parser is
    passed on. *)
Theorem invalid_payload_answered_400 (req : Request) (caller : User.t) (e : Exn) (db : Db) :
  user req = Some caller →
  api_trips_create_input_parse (body req) = Thrown e →
  api_trips_update_input_parse (body req) = Thrown e →
  let answer :=
    match e with
    | ZodError message field => Returned (json 400 (FieldError message field))
    | _ => Thrown e
    end in
  POST req db = (answer, db) ∧ PUT req db = (answer, db).
Proof.
  intros Huser Hcreate Hupdate answer. unfold answer.
  unfold create_trip, update_trip, requireAuth. rewrite Huser.
  unfold catch_zod, try_catch, of_outcome. rewrite Hcreate, Hupdate.
  unfold mbind, M_bind. by destruct e.
Qed.

(** X9. Both writing routes keep the identifiers of the trips unique and
    no greater than the serial counter, whatever the request. *)
Theorem ids_fresh_preserved (req : Request) (db : Db) :
  ids_fresh db → ids_fresh (POST req db).2 ∧ ids_fresh (PUT req db).2.
Proof.
  intros [Hnodup Hseq]. split.
  - destruct (create_trip_inv req db) as [(o & -> & _)|(trip & Hid & _ & ->)]; [done|].
    unfold ids_fresh. cbn [snd trips trips_id_seq]. split.
    + rewrite fmap_app. apply list.NoDup_app. split; [done|]. split; [|apply NoDup_singleton].
      intros id Hin. rewrite list_elem_of_fmap in Hin. destruct Hin as (t & -> & Ht).
      rewrite list.Forall_forall in Hseq. specialize (Hseq t Ht). cbn.
      rewrite list_elem_of_singleton. lia.
    + apply Forall_app. split.
      * eapply list.Forall_impl; [exact Hseq|]. intros t Ht. cbn in Ht |- *. lia.
      * apply Forall_singleton. lia.
  - destruct (update_trip_inv req db)
      as [(o & -> & _)|(caller & input & existingTrip & _ & _ & _ & ->)]; [done|].
    unfold ids_fresh. cbn [snd trips trips_id_seq].
    rewrite fmap_update_keeps by done. split; [done|].
    apply (Forall_fmap Trip.id (λ id, id ≤ trips_id_seq db)).
    rewrite fmap_update_keeps by done. by apply Forall_fmap.
Qed.

(** X10. A trip just created is the one its identifier finds, for any
    reader; the identifier was not in use; and every trip found under an
    identifier before is found under it after. *)
Theorem created_trip_is_retrievable (req : Request) (caller : User.t)
    (input : InsertTrip.t) (db : Db) :
  ids_fresh db →
  user req = Some caller →
  api_trips_create_input_parse (body req) = Returned input →
  ∃ trip db',
    POST req db = (Returned (json 201 (TripJson trip)), db')
    ∧ (Trip.id trip ∉ Trip.id <$> trips db)
    ∧ (∀ reader : User.t,
         get_trip (mkRequest (Some reader) (Trip.id trip) (query req) (body req) (year req)) db'
         = (Returned (json 200 (TripJson trip)), db'))
    ∧ (∀ id t, Storage.getTrip id db = (Returned (Some t), db) →
               Storage.getTrip id db' = (Returned (Some t), db')).
Proof.
  intros [Hnodup Hseq] Huser Hparse.
  pose proof (create_trip_unfold _ req caller input db Huser Hparse) as Hrun.
  cbv zeta in Hrun. eexists _, _. split; [exact Hrun|].
  assert (∀ t, t ∈ trips db → Trip.id t ≠ trips_id_seq db + 1) as Hnew.
  { intros t Ht. rewrite list.Forall_forall in Hseq. specialize (Hseq t Ht).
    cbn in Hseq. lia. }
  split; [|split].
  - cbn [Trip.id Storage.new_row]. intros Hin.
    rewrite list_elem_of_fmap in Hin. destruct Hin as (t & Hid & Ht).
    by apply (Hnew t Ht).
  - intros reader. unfold get_trip, requireAuth. cbn [user params_id].
    unfold mbind, M_bind, Storage.getTrip, select. cbn [trips Trip.id Storage.new_row].
    rewrite list.filter_app, filter_none by done.
    rewrite filter_cons_True by done. reflexivity.
  - intros id t Hget. apply getTrip_head in Hget.
    unfold Storage.getTrip, select. cbn [trips].
    by rewrite (head_filter_app_found _ _ _ _ Hget).
Qed.
End TripRoutes.

(** ** Trip codes *)

Lemma pretty_N_char_no_underscore (x : N) : pretty_N_char x ≠ "_"%char.
Proof. unfold pretty_N_char. by repeat case_match. Qed.

Lemma pretty_N_go_no_underscore (x : N) (s : string) :
  no_underscore s → no_underscore (pretty_N_go x s).
Proof.
  revert s. induction (N.lt_wf_0 x) as [x _ IH]; intros s Hs.
  assert (x = 0 ∨ 0 < x)%N as [->|Hx] by lia.
  - by rewrite pretty_N_go_0.
  - rewrite pretty_N_go_step by done. apply IH; [by apply N.div_lt|].
    apply Forall_cons_2; [apply pretty_N_char_no_underscore|done].
Qed.

(** A printed integer has no underscore. *)
Lemma pretty_Z_no_underscore (x : Z) : no_underscore (pretty x).
Proof.
  assert (∀ p : positive, no_underscore (pretty p)) as Hpos.
  { intros p. unfold pretty, pretty_positive, pretty, pretty_N.
    rewrite decide_False by done. apply pretty_N_go_no_underscore. constructor. }
  destruct x as [|p|p]; unfold pretty, pretty_Z.
  - apply Forall_cons_2; [discriminate|constructor].
  - apply Hpos.
  - apply Forall_cons_2; [discriminate|apply Hpos].
Qed.

(** Two texts joined by an underscore come apart in one way when the
    first has none. *)
Lemma split_at_underscore (a b c d : string) :
  no_underscore a → no_underscore c →
  a +:+ String "_" b = c +:+ String "_" d → a = c ∧ b = d.
Proof.
  unfold no_underscore. revert c.
  induction a as [|x a IH]; intros [|y c] Ha Hc Heq; simpl in *.
  - by injection Heq as ->.
  - injection Heq as <- _. by inversion_clear Hc.
  - injection Heq as -> _. by inversion_clear Ha.
  - injection Heq as -> Heq. inversion_clear Ha. inversion_clear Hc.
    destruct (IH c) as [-> ->]; done.
Qed.

Section TripCodes.
Context `{JsNumber} {Body : Type}.
Variable api_trips_create_input_parse : Body → Outcome InsertTrip.t.
Variable api_trips_update_input_parse : Body → Outcome Patch.t.

(** X24. Trip codes stay unique.  As long as the code of the n-th row is
    a year, an underscore and n, which holds of an empty table, no two
    trips share a code, and both writing routes keep it so whatever the
    request: a new trip is numbered one past the number of rows, and an
    update never touches a code. *)
Theorem trip_codes_stay_unique (req : Request) (db : Db) :
  codes_in_sequence db →
  NoDup (Trip.tripId <$> trips db)
  ∧ codes_in_sequence (create_trip api_trips_create_input_parse req db).2
  ∧ codes_in_sequence (update_trip api_trips_update_input_parse req db).2.
Proof.
  intros Hcodes. split; [|split].
  - apply NoDup_alt. intros i j code Hi Hj.
    rewrite list_lookup_fmap, fmap_Some in Hi, Hj.
    destruct Hi as (ti & Hi & ->), Hj as (tj & Hj & Hsame).
    destruct (Hcodes i ti Hi) as [yi Hcode_i], (Hcodes j tj Hj) as [yj Hcode_j].
    rewrite Hcode_i, Hcode_j in Hsame.
    apply split_at_underscore in Hsame as [_ Hn]; [|apply pretty_Z_no_underscore..].
    apply (inj pretty) in Hn. lia.
  - destruct (create_trip_inv api_trips_create_input_parse req db)
      as [(o & -> & _)|(trip & _ & Hcode & ->)]; [done|].
    intros i t Hi. cbn [snd trips] in Hi.
    apply lookup_app_Some in Hi as [Hi|[Hlen Hi]]; [by apply Hcodes|].
    apply list_lookup_singleton_Some in Hi as [Hi ->].
    exists (year req). rewrite Hcode. do 3 f_equal. lia.
  - destruct (update_trip_inv api_trips_update_input_parse req db)
      as [(o & -> & _)|(caller & input & existingTrip & _ & _ & _ & ->)]; [done|].
    intros i t Hi. cbn [snd trips] in Hi.
    rewrite list_lookup_fmap, fmap_Some in Hi. destruct Hi as (t0 & Hi & ->).
    destruct (Hcodes i t0 Hi) as [y Hcode]. exists y.
    by destruct (decide (Trip.id t0 = params_id req)).
Qed.
End TripCodes.

(** ** Reading trips *)

Section Reading.
Context `{JsNumber} {Body : Type}.
Variable Date_parse : string → option Z.

(** X18. Query parameters the list route cannot use.  A [settled] other
    than the texts true and false, and an empty vehicle number, trip code
    or date, are treated as not given; a date that does not parse is not
    answered with 400: the handler raises. *)
Theorem list_trips_ignores_unusable_filters (caller : User.t) (id year : Z) (b : Body)
    (q : Query.t) (s text : string) (db : Db) :
  s ≠ "true" → s ≠ "false" →
  text ≠ "" → Date_parse text = None →
  let GET q := list_trips Date_parse (mkRequest (Some caller) id (Some q) b year) db in
  GET (Query.mk (Query.vehicleNumber q) (Query.tripId q) (Query.loadedAfter q) (Some s))
  = GET (Query.mk (Query.vehicleNumber q) (Query.tripId q) (Query.loadedAfter q) None)
  ∧ GET (Query.mk (Some "") (Query.tripId q) (Query.loadedAfter q) (Query.settled q))
    = GET (Query.mk None (Query.tripId q) (Query.loadedAfter q) (Query.settled q))
  ∧ GET (Query.mk (Query.vehicleNumber q) (Some "") (Query.loadedAfter q) (Query.settled q))
    = GET (Query.mk (Query.vehicleNumber q) None (Query.loadedAfter q) (Query.settled q))
  ∧ GET (Query.mk (Query.vehicleNumber q) (Query.tripId q) (Some "") (Query.settled q))
    = GET (Query.mk (Query.vehicleNumber q) (Query.tripId q) None (Query.settled q))
  ∧ GET (Query.mk (Query.vehicleNumber q) (Query.tripId q) (Some text) (Query.settled q))
    = (Thrown (RuntimeError "RangeError"), db).
Proof.
  intros Htrue Hfalse Htext Hdate GET. unfold GET, list_trips, requireAuth.
  cbn [user query mbind option_bind Query.vehicleNumber Query.tripId Query.loadedAfter
       Query.settled].
  split; [|split; [reflexivity|split; [reflexivity|split; [reflexivity|]]]].
  - unfold settled_filter.
    by rewrite !bool_decide_eq_false_2 by (intros [= ?]; congruence).
  - unfold loadedAfter_filter. rewrite bool_decide_eq_false_2 by done. by rewrite Hdate.
Qed.
End Reading.

(** ** Sessions *)

Lemma head_filter_key {A K} `{EqDecision K} (key : A → K) (l : list A) (x : A) :
  NoDup (key <$> l) → x ∈ l → head (filter (λ y, key y = key x) l) = Some x.
Proof.
  induction l as [|y l IH]; [by intros _ ?%elem_of_nil|].
  rewrite fmap_cons, list.NoDup_cons. intros [Hy Hl] Hx.
  destruct (decide (key y = key x)) as [Heq|Hne].
  - rewrite filter_cons_True by done. simpl. f_equal.
    apply elem_of_cons in Hx as [->|Hx]; [done|].
    destruct Hy. rewrite Heq. apply list_elem_of_fmap. by exists x.
  - rewrite filter_cons_False by done. apply IH; [done|].
    apply elem_of_cons in Hx as [->|Hx]; [done|done].
Qed.

Lemma head_filter_elem_of {A} (P : A → Prop) `{∀ x, Decision (P x)} (l : list A) (x : A) :
  head (filter P l) = Some x → P x ∧ x ∈ l.
Proof. intros Hx%head_Some_elem_of. by apply list_elem_of_filter in Hx. Qed.

Lemma head_filter_none {A} (P : A → Prop) `{∀ x, Decision (P x)} (l : list A) (x : A) :
  head (filter P l) = None → x ∈ l → ¬ P x.
Proof.
  intros Hnone Hx HP. assert (x ∈ filter P l) as Hin by by apply list_elem_of_filter.
  destruct (filter P l); [by apply elem_of_nil in Hin|done].
Qed.

Section Sessions.
Context `{JsNumber} {Body : Type}.
Variable scrypt : string → string → list N.

(** A password verifies against its own hash. *)
Lemma comparePasswords_own_hash (randomBytes16 : list N) (password : string) :
  bytes randomBytes16 →
  bytes (scrypt password (Buffer_toString_hex randomBytes16)) →
  comparePasswords scrypt password (hashPassword scrypt randomBytes16 password)
  = Returned true.
Proof.
  intros Hsalt Hkey. unfold comparePasswords, hashPassword. cbv zeta.
  change (":" +:+ ?s) with (String ":" s).
  rewrite split_on_colon by by apply hex_no_colon.
  rewrite split_on_no_colon by by apply hex_no_colon.
  rewrite hex_round_trip by done. unfold timingSafeEqual.
  rewrite decide_True by done. by rewrite bool_decide_eq_true_2.
Qed.

(** A login that opens a session answered 200 with a registered user whose
    identifier the session keeps. *)
Lemma login_session_inv (username password : option string) (db db' : Db)
    (r : Response) (sid : Z) :
  login scrypt username password db = (Returned (mkLogin r (Some sid)), db') →
  ∃ user, db' = db ∧ r = json 200 (UserJson user) ∧ user ∈ users db ∧ sid = User.id user.
Proof.
  destruct username as [u|], password as [p|]; try done.
  destruct (decide (u = "")) as [->|Hu]; [done|].
  destruct (decide (p = "")) as [->|Hp].
  { unfold login. rewrite orb_true_r. done. }
  rewrite login_unfold by done.
  destruct (head _) as [user|] eqn:Hhead; [|done].
  apply head_filter_elem_of in Hhead as [_ Huser].
  destruct (comparePasswords _ _ _) as [[|]|]; try done.
  intros [= <- <- <-]. by exists user.
Qed.

(** X11. The identifier a login writes to the session brings back the user
    who logged in: with identifiers of users unique, a later request under
    that session is handled with that user as [req.user], and the me route
    answers with it.  Once logged out, the me route answers 401. *)
Theorem session_round_trip (username password : option string) (req : Request (Body:=Body))
    (db db' : Db) (r : Response) (sid : Z) :
  NoDup (User.id <$> users db) →
  login scrypt username password db = (Returned (mkLogin r (Some sid)), db') →
  ∃ user,
    r = json 200 (UserJson user)
    ∧ with_session (Some sid) req db' = (Returned (on_behalf_of (Some user) req), db')
    ∧ (with_session (Some sid) req ≫= me) db' = (Returned (json 200 (UserJson user)), db')
    ∧ ∃ out, logout db' = (Returned out, db')
             ∧ statusCode (response out) = 200
             ∧ (with_session (session out) req ≫= me) db' = (Returned (sendStatus 401), db').
Proof.
  intros Hids Hlogin.
  apply login_session_inv in Hlogin as (user & -> & -> & Huser & ->).
  exists user. split; [done|].
  assert (with_session (Some (User.id user)) req db
          = (Returned (on_behalf_of (Some user) req), db)) as Hsession.
  { unfold with_session, deserializeUser, Storage.getUser, mbind, M_bind, select.
    by rewrite head_filter_key. }
  split; [done|]. split.
  - by erewrite bind_returned; [|exact Hsession].
  - by eexists.
Qed.

(** X12. A user whose stored password is not a salt and a key joined by a
    colon cannot log in, whatever is typed: the comparison raises, the
    verify callback passes the error on, and the login request fails with
    it instead of being answered with 401.  The same holds when the stored
    key does not have the length of a derived key. *)
Theorem login_fails_on_unhashed_password (username password : string) (u : User.t) (db : Db) :
  username ≠ "" →
  password ≠ "" →
  Storage.getUserByUsername username db = (Returned (Some u), db) →
  (no_colon (User.password u) →
   login scrypt (Some username) (Some password) db
   = (Thrown (RuntimeError "TypeError"), db))
  ∧ (∀ salt key,
       User.password u = salt +:+ String ":" key →
       no_colon salt → no_colon key →
       length (Buffer_from_hex key) ≠ length (scrypt password salt) →
       login scrypt (Some username) (Some password) db
       = (Thrown (RuntimeError "RangeError"), db)).
Proof.
  intros Hu Hp Hget.
  assert (head (filter (λ x, User.username x = username) (users db)) = Some u) as Hhead.
  { unfold Storage.getUserByUsername, select in Hget. congruence. }
  split.
  - intros Hplain. rewrite login_unfold, Hhead by done.
    unfold comparePasswords. by rewrite split_on_no_colon.
  - intros salt key Hstored Hsalt Hkey Hlen. rewrite login_unfold, Hhead by done.
    unfold comparePasswords. rewrite Hstored, split_on_colon, split_on_no_colon by done.
    unfold timingSafeEqual. by rewrite decide_False.
Qed.

(** *** The first administrator *)

(** The seed block run on a database. *)
Lemma seed_admin_unfold (id : Z) (salt : list N) (db : Db) :
  seed_admin scrypt id salt db
  = (Returned (),
     match head (filter (λ u, User.username u = "admin") (users db)) with
     | Some _ => db
     | None =>
         {| users := users db ++ [User.mk id "admin" (hashPassword scrypt salt "admin123")
                                    "System Admin" ROLES_ADMIN];
            trips := trips db;
            trips_id_seq := trips_id_seq db |}
     end).
Proof.
  unfold seed_admin, Storage.getUserByUsername, Storage.createUser, select, mbind, M_bind.
  by destruct (head _).
Qed.

Lemma getUserByUsername_appended (u : User.t) (l : list User.t) :
  head (filter (λ x, User.username x = User.username u) l) = None →
  head (filter (λ x, User.username x = User.username u) (l ++ [u])%list) = Some u.
Proof.
  intros Hhead.
  rewrite list.filter_app, filter_none
    by (intros x Hx; by apply (head_filter_none _ _ _ Hhead)).
  by rewrite filter_cons_True.
Qed.

(** X13. After the seed block there is a user named admin.  If there was
    one already nothing is written, so an existing administrator keeps the
    password they have; running the block again changes nothing; trips and
    the users already registered are left alone. *)
Theorem seed_admin_once (id id' : Z) (salt salt' : list N) (db : Db) :
  let seeded := (seed_admin scrypt id salt db).2 in
  (∃ admin, Storage.getUserByUsername "admin" seeded = (Returned (Some admin), seeded))
  ∧ (∀ admin, Storage.getUserByUsername "admin" db = (Returned (Some admin), db) →
              seed_admin scrypt id salt db = (Returned (), db))
  ∧ seed_admin scrypt id' salt' seeded = (Returned (), seeded)
  ∧ trips seeded = trips db
  ∧ users db `prefix_of` users seeded.
Proof.
  intros seeded.
  assert (∃ admin, head (filter (λ u, User.username u = "admin") (users seeded)) = Some admin)
    as [admin Hadmin].
  { unfold seeded. rewrite seed_admin_unfold. cbn [snd].
    destruct (head (filter (λ u, User.username u = "admin") (users db)))
      as [admin|] eqn:Hhead; [by exists admin|].
    eexists. cbn [users].
    by apply (getUserByUsername_appended (User.mk id "admin" _ "System Admin" ROLES_ADMIN)). }
  split; [|split; [|split; [|split]]].
  - exists admin. unfold Storage.getUserByUsername, select. by rewrite Hadmin.
  - intros existing Hget. unfold Storage.getUserByUsername, select in Hget.
    injection Hget as Hget. rewrite seed_admin_unfold. by rewrite Hget.
  - rewrite seed_admin_unfold. by rewrite Hadmin.
  - clear Hadmin. unfold seeded. rewrite seed_admin_unfold. cbn [snd]. by destruct (head _).
  - clear Hadmin. unfold seeded. rewrite seed_admin_unfold. cbn [snd].
    destruct (head _); [done|]. by apply prefix_app_r.
Qed.

(** X14. The administrator the seed block creates can log in with the
    password admin123, and is an ADMIN. *)
Theorem seeded_admin_can_log_in (id : Z) (salt : list N) (db : Db) :
  Storage.getUserByUsername "admin" db = (Returned None, db) →
  bytes salt →
  bytes (scrypt "admin123" (Buffer_toString_hex salt)) →
  let seeded := (seed_admin scrypt id salt db).2 in
  ∃ admin,
    login scrypt (Some "admin") (Some "admin123") seeded
    = (Returned (mkLogin (json 200 (UserJson admin)) (Some id)), seeded)
    ∧ User.role admin = ROLES_ADMIN
    ∧ User.username admin = "admin".
Proof.
  intros Hget Hsalt Hkey seeded.
  assert (head (filter (λ u, User.username u = "admin") (users db)) = None) as Hhead.
  { unfold Storage.getUserByUsername, select in Hget. congruence. }
  unfold seeded. rewrite seed_admin_unfold, Hhead. cbn [snd].
  eexists. rewrite login_unfold by done. cbn [users].
  rewrite (getUserByUsername_appended
             (User.mk id "admin" _ "System Admin" ROLES_ADMIN)) by done.
  cbn [User.password User.id].
  rewrite comparePasswords_own_hash by done. done.
Qed.
End Sessions.

(** ** The routes of the administrator *)

Section Admin.
Context `{JsNumber} {plus : JsPlus} {Body : Type}.
Variable scrypt : string → string → list N.
Variable api_users_create_input_parse : Body → Outcome InsertUser.t.

Abbreviation POST_user := (create_user scrypt api_users_create_input_parse).

(** X15. The three reports and the creation of users are for an ADMIN
    only.  Any other caller is answered with 403, and so is a request
    without a session, which these routes do not answer with 401; nothing
    is written. *)
Theorem admin_routes_refuse_everyone_else (id : Z) (salt : list N)
    (req : Request (Body:=Body)) (db : Db) :
  (∀ u, user req = Some u → User.role u ≠ ROLES_ADMIN) →
  motor_owner_analytics req db = (Returned (sendStatus 403), db)
  ∧ dashboard req db = (Returned (Plain (sendStatus 403)), db)
  ∧ party_analytics req db = (Returned (Plain (sendStatus 403)), db)
  ∧ POST_user id salt req db = (Returned (sendStatus 403), db).
Proof.
  intros Hrole.
  unfold motor_owner_analytics, dashboard, party_analytics, create_user,
    requireAdmin, requireAdmin_report.
  destruct (user req) as [u|]; [|done].
  by rewrite bool_decide_eq_false_2 by by apply Hrole.
Qed.

(** Every run of the user route is a refusal that leaves the database as
    it was, or a 201 that appends one user under a name nobody had, with
    the hash of the password in place of the password. *)
Lemma create_user_inv (id : Z) (salt : list N) (req : Request (Body:=Body)) (db : Db) :
  (∃ o, POST_user id salt req db = (o, db) ∧ ∀ r, o = Returned r → statusCode r ≠ 201)
  ∨ (∃ input,
       api_users_create_input_parse (body req) = Returned input
       ∧ head (filter (λ u, User.username u = InsertUser.username input) (users db)) = None
       ∧ let user :=
           User.mk id (InsertUser.username input)
             (hashPassword scrypt salt (InsertUser.password input))
             (InsertUser.name input) (InsertUser.role input) in
         POST_user id salt req db
         = (Returned (json 201 (UserJson user)),
            {| users := users db ++ [user];
               trips := trips db;
               trips_id_seq := trips_id_seq db |})).
Proof.
  unfold create_user, requireAdmin.
  destruct (user req) as [caller|]; cycle 1.
  { left. eexists. split; [reflexivity|]. by intros r [= <-]. }
  destruct (bool_decide (User.role caller = ROLES_ADMIN)); cycle 1.
  { left. eexists. split; [reflexivity|]. by intros r [= <-]. }
  unfold catch_zod, try_catch, of_outcome.
  destruct (api_users_create_input_parse (body req)) as [input|e]; cycle 1.
  { left. unfold mbind, M_bind.
    destruct e; eexists; (split; [reflexivity|]); by intros r [= <-]. }
  unfold mbind, M_bind, Storage.getUserByUsername, Storage.createUser, select.
  destruct (head _) as [existingUser|] eqn:Hhead.
  { left. eexists. split; [reflexivity|]. by intros r [= <-]. }
  right. exists input. done.
Qed.

(** X16. The user route keeps usernames unique.  Whatever the request, a
    table of users with distinct names is left with distinct names, those
    already registered stay as they are and the trips are not touched; and
    a request for a name that is taken is answered with 400 on the field
    username, nothing being written. *)
Theorem create_user_keeps_usernames_unique (id : Z) (salt : list N)
    (req : Request (Body:=Body)) (db : Db) :
  NoDup (User.username <$> users db) →
  NoDup (User.username <$> users (POST_user id salt req db).2)
  ∧ users db `prefix_of` users (POST_user id salt req db).2
  ∧ trips (POST_user id salt req db).2 = trips db
  ∧ trips_id_seq (POST_user id salt req db).2 = trips_id_seq db
  ∧ (∀ admin input existingUser,
       user req = Some admin → User.role admin = ROLES_ADMIN →
       api_users_create_input_parse (body req) = Returned input →
       Storage.getUserByUsername (InsertUser.username input) db
       = (Returned (Some existingUser), db) →
       POST_user id salt req db
       = (Returned (json 400 (FieldError "Username already exists" "username")), db)).
Proof.
  intros Hnames. split; [|split; [|split; [|split]]].
  - destruct (create_user_inv id salt req db) as [(o & -> & _)|(input & _ & Hfree & ->)];
      [done|].
    cbn [snd users]. rewrite fmap_app. apply list.NoDup_app.
    split; [done|]. split; [|apply NoDup_singleton].
    intros name Hin. rewrite list_elem_of_fmap in Hin. destruct Hin as (u & -> & Hu).
    cbn. rewrite list_elem_of_singleton.
    by apply (head_filter_none _ _ _ Hfree).
  - destruct (create_user_inv id salt req db) as [(o & -> & _)|(input & _ & _ & ->)];
      [done|].
    by apply prefix_app_r.
  - by destruct (create_user_inv id salt req db) as [(o & -> & _)|(input & _ & _ & ->)].
  - by destruct (create_user_inv id salt req db) as [(o & -> & _)|(input & _ & _ & ->)].
  - intros admin input existingUser Huser Hadmin Hparse Hget.
    unfold create_user, requireAdmin. rewrite Huser, bool_decide_eq_true_2 by done.
    unfold catch_zod. apply try_catch_returned.
    rewrite Hparse. unfold of_outcome.
    erewrite bind_returned; [|reflexivity].
    erewrite bind_returned; [|exact Hget]. reflexivity.
Qed.

(** X17. A user the route has created can log in with the password of the
    request: what is stored is the hash of that password, which verifies;
    the login answers with the user as stored under the identifier handed
    out; and asking for the same name again is answered with 400. *)
Theorem created_user_can_log_in (id : Z) (salt : list N) (req : Request (Body:=Body))
    (admin : User.t) (input : InsertUser.t) (db : Db) :
  user req = Some admin →
  User.role admin = ROLES_ADMIN →
  api_users_create_input_parse (body req) = Returned input →
  Storage.getUserByUsername (InsertUser.username input) db = (Returned None, db) →
  InsertUser.username input ≠ "" →
  InsertUser.password input ≠ "" →
  bytes salt →
  bytes (scrypt (InsertUser.password input) (Buffer_toString_hex salt)) →
  ∃ user db',
    POST_user id salt req db = (Returned (json 201 (UserJson user)), db')
    ∧ User.password user = hashPassword scrypt salt (InsertUser.password input)
    ∧ User.role user = InsertUser.role input
    ∧ login scrypt (Some (InsertUser.username input)) (Some (InsertUser.password input)) db'
      = (Returned (mkLogin (json 200 (UserJson user)) (Some id)), db')
    ∧ ∀ id2 salt2,
        POST_user id2 salt2 req db'
        = (Returned (json 400 (FieldError "Username already exists" "username")), db').
Proof.
  intros Huser Hadmin Hparse Hget Hname Hpassword Hsalt Hkey.
  assert (head (filter (λ u, User.username u = InsertUser.username input) (users db)) = None)
    as Hfree.
  { unfold Storage.getUserByUsername, select in Hget. congruence. }
  set (user := User.mk id (InsertUser.username input)
                 (hashPassword scrypt salt (InsertUser.password input))
                 (InsertUser.name input) (InsertUser.role input)).
  set (db' := {| users := users db ++ [user]; trips := trips db;
                 trips_id_seq := trips_id_seq db |}).
  assert (head (filter (λ u, User.username u = InsertUser.username input) (users db'))
          = Some user) as Hfound.
  { apply (getUserByUsername_appended user). exact Hfree. }
  exists user, db'. split; [|split; [done|split; [done|split]]].
  - unfold create_user, requireAdmin. rewrite Huser, bool_decide_eq_true_2 by done.
    unfold catch_zod. apply try_catch_returned.
    rewrite Hparse. unfold of_outcome.
    erewrite bind_returned; [|reflexivity].
    erewrite bind_returned; [|exact Hget]. reflexivity.
  - rewrite login_unfold by done. rewrite Hfound. cbn [User.password user].
    by rewrite comparePasswords_own_hash.
  - intros id2 salt2.
    unfold create_user, requireAdmin. rewrite Huser, bool_decide_eq_true_2 by done.
    unfold catch_zod. apply try_catch_returned.
    rewrite Hparse. unfold of_outcome.
    erewrite bind_returned; [|reflexivity].
    unfold mbind, M_bind, Storage.getUserByUsername, select. by rewrite Hfound.
Qed.
End Admin.

(** ** Routes that only read *)

Section ReadOnly.
Context `{JsNumber} {plus : JsPlus} {Body : Type}.
Variable scrypt : string → string → list N.
Variable Date_parse : string → option Z.

End ReadOnly.

(** ** The dashboard and the party report *)

Lemma length_filter_split {A} (P Q : A → Prop)
    `{∀ x, Decision (P x)} `{∀ x, Decision (Q x)} (l : list A) :
  (∀ x, Q x ↔ ¬ P x) →
  (length (filter P l) + length (filter Q l))%nat = length l.
Proof.
  intros HQ. induction l as [|x l IH]; [done|].
  destruct (decide (P x)) as [HP|HP].
  - rewrite (filter_cons_True P) by done.
    rewrite (filter_cons_False Q) by (rewrite HQ; tauto). simpl. lia.
  - rewrite (filter_cons_False P) by done.
    rewrite (filter_cons_True Q) by (by rewrite HQ). simpl. lia.
Qed.

Lemma sum_list_fmap_plus {A} (f g : A → nat) (l : list A) :
  sum_list ((λ x, f x + g x)%nat <$> l) = (sum_list (f <$> l) + sum_list (g <$> l))%nat.
Proof.
  induction l as [|x l IH]; [done|]. rewrite !fmap_cons.
  change (sum_list (?a :: ?k)) with (a + sum_list k)%nat. rewrite IH. lia.
Qed.

Lemma sum_list_indicator {K} `{EqDecision K} (a : K) (ks : list K) :
  NoDup ks → a ∈ ks → sum_list ((λ k, if decide (a = k) then 1 else 0)%nat <$> ks) = 1%nat.
Proof.
  induction ks as [|k ks IH]; [by intros _ ?%elem_of_nil|].
  rewrite list.NoDup_cons. intros [Hk Hks] Ha.
  rewrite fmap_cons. change (sum_list (?x :: ?l)) with (x + sum_list l)%nat.
  destruct (decide (a = k)) as [->|Hne].
  - replace (sum_list _) with 0%nat; [done|]. symmetry. clear IH Hks Ha.
    induction ks as [|k' ks IH]; [done|].
    rewrite fmap_cons. change (sum_list (?x :: ?l)) with (x + sum_list l)%nat.
    rewrite decide_False by (intros ->; apply Hk; left).
    apply IH. intros Hin. apply Hk. by right.
  - apply elem_of_cons in Ha as [?|Ha]; [done|]. by rewrite IH.
Qed.

(** The groups of a GROUP BY partition the rows. *)
Lemma sum_group_sizes {R K} `{EqDecision K} (key : R → K) (rows : list R) (ks : list K) :
  NoDup ks →
  (∀ r, r ∈ rows → key r ∈ ks) →
  sum_list ((λ k, length (filter (λ r, key r = k) rows)) <$> ks) = length rows.
Proof.
  intros Hks. induction rows as [|r rows IH]; intros Hin.
  - clear Hks Hin. induction ks as [|k ks IHks]; [done|]. exact IHks.
  - rewrite (list_fmap_ext _
               (λ k, (if decide (key r = k) then 1 else 0)
                     + length (filter (λ r, key r = k) rows))%nat).
    + rewrite sum_list_fmap_plus, sum_list_indicator, IH; [done| |done|].
      * intros r' Hr'. apply Hin. by right.
      * apply Hin. by left.
    + intros _ k _. rewrite filter_cons. by destruct (decide (key r = k)).
Qed.

Lemma group_sizes_positive {R K} `{EqDecision K} (key : R → K) (rows : list R) (k : K) :
  k ∈ remove_dups (key <$> rows) → (0 < length (filter (λ r, key r = k) rows))%nat.
Proof.
  rewrite elem_of_remove_dups, list_elem_of_fmap. intros (r & -> & Hr).
  assert (r ∈ filter (λ r', key r' = key r) rows) as Hin by by apply list_elem_of_filter.
  destruct (filter _ rows); [by apply elem_of_nil in Hin|simpl; lia].
Qed.

Section Reports.
Context `{JsNumber} {plus : JsPlus} {Body : Type}.
Variable api_trips_create_input_parse : Body → Outcome InsertTrip.t.

(** The figures of the dashboard, as a function of the rows. *)
Lemma getDashboardStats_unfold (db : Db) :
  Storage.getDashboardStats db
  = (Returned
       (DashboardStats.mk
          (length (trips db))
          (length (filter (λ t, Trip.status t ≠ TRIP_STATUS_COMPLETED
                                ∧ Trip.status t ≠ TRIP_STATUS_SETTLED) (trips db)))
          (foldl (λ sum t, num_add sum (Number_or0 (js (Trip.partyFreight t))))
             num_zero (trips db))
          (foldl (λ sum t, num_add sum (Number_or0 (js (Trip.partyBalance t))))
             num_zero (trips db))
          [("2024-01", 12); ("2024-02", 19); ("2024-03", 15)]
          [("Jan", 50000); ("Feb", 75000); ("Mar", 60000)]), db).
Proof. reflexivity. Qed.

(** X20. The dashboard of an ADMIN.  The total is the number of trips; the
    active trips and the COMPLETED or SETTLED ones add up to it; with no
    trip both amounts are the number zero; and the two chart series do not
    depend on the ledger: they are the same for every database.  Nothing is
    written. *)
Theorem dashboard_counts (req : Request (Body:=Body)) (admin : User.t) (db : Db) :
  user req = Some admin →
  User.role admin = ROLES_ADMIN →
  ∃ stats,
    dashboard req db = (Returned (Sent 200 (DashboardJson stats)), db)
    ∧ DashboardStats.totalTrips stats = length (trips db)
    ∧ (DashboardStats.activeTrips stats + length (filter closed (trips db)))%nat
      = DashboardStats.totalTrips stats
    ∧ (trips db = [] →
       DashboardStats.partyRevenue stats = num_zero
       ∧ DashboardStats.pendingAmount stats = num_zero)
    ∧ ∀ db2 stats2,
        Storage.getDashboardStats db2 = (Returned stats2, db2) →
        DashboardStats.monthlyTrips stats2 = DashboardStats.monthlyTrips stats
        ∧ DashboardStats.revenueFlow stats2 = DashboardStats.revenueFlow stats.
Proof.
  intros Huser Hadmin. eexists. split; [|split; [|split; [|split]]].
  - unfold dashboard, requireAdmin_report. rewrite Huser, bool_decide_eq_true_2 by done.
    erewrite bind_returned; [|apply getDashboardStats_unfold]. reflexivity.
  - reflexivity.
  - cbn [DashboardStats.activeTrips DashboardStats.totalTrips].
    apply length_filter_split. intros t. unfold closed.
    destruct (decide (Trip.status t = TRIP_STATUS_COMPLETED)),
             (decide (Trip.status t = TRIP_STATUS_SETTLED)); tauto.
  - intros Hnone. cbn [DashboardStats.partyRevenue DashboardStats.pendingAmount].
    by rewrite Hnone.
  - intros db2 stats2 Hstats. rewrite getDashboardStats_unfold in Hstats.
    by injection Hstats as <-.
Qed.

(** X21. What a new trip does to the dashboard.  After a create request
    that is answered with 201 the total is one more; the active trips are
    one more unless the trip came in as COMPLETED or SETTLED; the revenue
    is the old one plus the freight of the payload, the pending amount the
    old one plus the balance the handler computed. *)
Theorem dashboard_after_create (req : Request (Body:=Body)) (caller : User.t)
    (input : InsertTrip.t) (db : Db) :
  user req = Some caller →
  api_trips_create_input_parse (body req) = Returned input →
  ∃ before after trip,
    Storage.getDashboardStats db = (Returned before, db)
    ∧ (create_trip api_trips_create_input_parse req ≫= λ _, Storage.getDashboardStats) db
      = (Returned after, (create_trip api_trips_create_input_parse req db).2)
    ∧ (create_trip api_trips_create_input_parse req db).1 = Returned (json 201 (TripJson trip))
    ∧ DashboardStats.totalTrips after = S (DashboardStats.totalTrips before)
    ∧ DashboardStats.activeTrips after
      = (DashboardStats.activeTrips before + if decide (closed trip) then 0 else 1)%nat
    ∧ DashboardStats.partyRevenue after
      = num_add (DashboardStats.partyRevenue before)
                (Number_or0 (InsertTrip.partyFreight input))
    ∧ DashboardStats.pendingAmount after
      = num_add (DashboardStats.pendingAmount before)
                (Number_or0 (JString (balance_text (InsertTrip.partyFreight input)
                                                   (InsertTrip.partyAdvance input)))).
Proof.
  intros Huser Hparse.
  pose proof (create_trip_unfold _ req caller input db Huser Hparse) as Hrun.
  cbv zeta in Hrun. set (trip := Storage.new_row _ _ _) in Hrun.
  eexists _, _, trip.
  split; [apply getDashboardStats_unfold|].
  split; [erewrite bind_returned; [|exact Hrun]; rewrite Hrun; apply getDashboardStats_unfold|].
  rewrite Hrun. split; [reflexivity|].
  cbn [snd DashboardStats.totalTrips DashboardStats.activeTrips DashboardStats.partyRevenue
       DashboardStats.pendingAmount trips].
  rewrite length_app, list.filter_app, length_app, !foldl_app.
  cbn [foldl length]. split; [lia|]. split; [|split].
  - f_equal. rewrite filter_cons. unfold closed.
    destruct (decide (_ ∧ _)), (decide (_ ∨ _)); try done; tauto.
  - f_equal. apply Number_or0_stored.
  - reflexivity.
Qed.

(** The rows of the party report, as a function of the trips. *)
Lemma getPartyAnalytics_rows (db : Db) :
  Storage.getPartyAnalytics db
  = (Returned
       ((λ k,
           let group := filter (λ t, Trip.partyName t = k) (trips db) in
           {| PartyAnalytics.name := js k;
              PartyAnalytics.totalTrips := Number_row (sql_count group);
              PartyAnalytics.totalFreight :=
                Number_row (sql_sum (Trip.partyFreight <$> group));
              PartyAnalytics.totalAdvance :=
                Number_row (sql_sum (Trip.partyAdvance <$> group));
              PartyAnalytics.outstandingBalance :=
                Number_row (sql_sum (Trip.partyBalance <$> group)) |})
        <$> remove_dups (Trip.partyName <$> trips db)), db).
Proof.
  unfold Storage.getPartyAnalytics, select, sql_group_by.
  cbv zeta. by rewrite <- !list_fmap_compose.
Qed.


(** X23. Both reports count every trip they cover once.  The row counts
    of the motor-owner report are positive and add up to the number of
    MARKET trips; those of the party report are positive and add up to the
    number of trips. *)
Theorem analytics_counts_add_up (db : Db) :
  (∃ rows counts,
     Storage.getMotorOwnerAnalytics db = (Returned rows, db)
     ∧ Forall2 (λ r n, MotorOwnerAnalytics.tripsDone r = Number_string (pretty (Z.of_nat n))
                       ∧ (0 < n)%nat) rows counts
     ∧ sum_list counts
       = length (filter (λ t, Trip.vehicleType t = "MARKET") (trips db)))
  ∧ (∃ rows counts,
       Storage.getPartyAnalytics db = (Returned rows, db)
       ∧ Forall2 (λ r n, PartyAnalytics.totalTrips r = Number_string (pretty (Z.of_nat n))
                         ∧ (0 < n)%nat) rows counts
       ∧ sum_list counts = length (trips db)).
Proof.
  split.
  - set (market := filter (λ t, Trip.vehicleType t = "MARKET") (trips db)).
    eexists _, ((λ k, length (filter (λ t, Trip.motorOwnerName t = k) market))
                <$> remove_dups (Trip.motorOwnerName <$> market)).
    split; [apply getMotorOwnerAnalytics_rows|]. split.
    + apply Forall2_fmap, Forall_Forall2_diag, list.Forall_forall.
      intros k Hk. split; [reflexivity|]. by apply group_sizes_positive.
    + apply sum_group_sizes; [apply NoDup_remove_dups|].
      intros t Ht. apply elem_of_remove_dups, list_elem_of_fmap. by exists t.
  - eexists _, ((λ k, length (filter (λ t, Trip.partyName t = k) (trips db)))
                <$> remove_dups (Trip.partyName <$> trips db)).
    split; [apply getPartyAnalytics_rows|]. split.
    + apply Forall2_fmap, Forall_Forall2_diag, list.Forall_forall.
      intros k Hk. split; [reflexivity|]. by apply group_sizes_positive.
    + apply sum_group_sizes; [apply NoDup_remove_dups|].
      intros t Ht. apply elem_of_remove_dups, list_elem_of_fmap. by exists t.
Qed.
End Reports.

(** ** The text filters of the list *)

Lemma like_match_percent_nil (p : list ascii) :
  like_match ("%"%char :: p) [] = like_match p [].
Proof. cbn. apply orb_false_r. Qed.

Lemma like_match_percent_cons (p : list ascii) (x : ascii) (s : list ascii) :
  like_match ("%"%char :: p) (x :: s) = like_match p (x :: s) || like_match ("%"%char :: p) s.
Proof. reflexivity. Qed.

Lemma like_match_plain_cons (c : ascii) (p s : list ascii) :
  plain_char c →
  like_match (c :: p) s
  = match s with
    | [] => false
    | x :: s' => bool_decide (x = c) && like_match p s'
    end.
Proof.
  intros (Hpercent & Hunderscore & Hbackslash). cbn [like_match].
  by rewrite !bool_decide_eq_false_2 by done.
Qed.

(** [%] lets the rest of the pattern start anywhere. *)
Lemma like_match_percent (p s : list ascii) :
  like_match ("%"%char :: p) s = true
  ↔ ∃ before rest, s = (before ++ rest)%list ∧ like_match p rest = true.
Proof.
  induction s as [|x s IH].
  - rewrite like_match_percent_nil. split.
    + intros Hp. by exists [], [].
    + intros (before & rest & Hs & Hp). symmetry in Hs.
      apply app_eq_nil in Hs as [-> ->]. done.
  - rewrite like_match_percent_cons, orb_true_iff, IH. split.
    + intros [Hp|(before & rest & -> & Hp)].
      * by exists [], (x :: s).
      * by exists (x :: before), rest.
    + intros (before & rest & Hs & Hp). destruct before as [|y before].
      * left. simpl in Hs. by rewrite Hs.
      * right. injection Hs as -> ->. by exists before, rest.
Qed.

(** A run of plain characters followed by [%] asks for that run at the
    start. *)
Lemma like_match_plain_prefix (p s : list ascii) :
  Forall plain_char p →
  like_match (p ++ ["%"%char]) s = true ↔ ∃ rest, s = (p ++ rest)%list.
Proof.
  intros Hp. revert s. induction Hp as [|c p Hc Hp IH]; intros s.
  - split; [by exists s|]. intros _. apply like_match_percent.
    exists s, []. by rewrite app_nil_r.
  - change (((c :: p) ++ ["%"%char])%list) with (c :: (p ++ ["%"%char]))%list.
    rewrite like_match_plain_cons by done. destruct s as [|x s].
    + split; [done|]. by intros (rest & ?).
    + rewrite andb_true_iff, bool_decide_eq_true, IH. split.
      * intros (-> & rest & ->). by exists rest.
      * intros (rest & [= -> ->]). split; [done|]. by exists rest.
Qed.

Lemma plain_char_to_lower (c : ascii) : plain_char c → plain_char (to_lower c).
Proof.
  unfold plain_char, to_lower. cbv zeta.
  destruct (decide (65 ≤ N_of_ascii c ≤ 90)%N) as [Hupper|_]; [|done].
  intros _.
  assert (∀ d, (N_of_ascii d < 97)%N → ascii_of_N (N_of_ascii c + 32) ≠ d) as Hne.
  { intros d Hd <-. rewrite N_ascii_embedding in Hd by lia. lia. }
  repeat split; apply Hne; cbn; lia.
Qed.

Lemma list_ascii_of_string_app (s1 s2 : string) :
  String.list_ascii_of_string (s1 +:+ s2)
  = (String.list_ascii_of_string s1 ++ String.list_ascii_of_string s2)%list.
Proof. induction s1 as [|c s1 IH]; [done|]. simpl. by rewrite IH. Qed.

(** [value ILIKE '%text%'] for a text of plain characters: the text occurs
    in the value, case apart. *)
Lemma sql_ilike_contains (value text : string) :
  plain_text text →
  sql_ilike value ("%" +:+ text +:+ "%") = true ↔ occurs_in (lower text) (lower value).
Proof.
  intros Htext. unfold sql_ilike, occurs_in.
  change ("%" +:+ text +:+ "%") with (String "%" (text +:+ "%")).
  cbn [String.list_ascii_of_string]. rewrite list_ascii_of_string_app, fmap_cons, fmap_app.
  change (to_lower "%"%char) with "%"%char.
  change (to_lower <$> String.list_ascii_of_string "%") with ["%"%char].
  rewrite like_match_percent. fold (lower text) (lower value).
  assert (Forall plain_char (lower text)) as Hlower.
  { unfold lower. apply Forall_fmap. eapply list.Forall_impl; [exact Htext|].
    intros c Hc. by apply plain_char_to_lower. }
  split.
  - intros (before & rest & Hvalue & Hrest).
    apply like_match_plain_prefix in Hrest as [after ->]; [|done]. by exists before, after.
  - intros (before & after & Hvalue). exists before, (lower text ++ after)%list.
    split; [done|]. apply like_match_plain_prefix; [done|]. by exists after.
Qed.

(** X19. The two text filters of [getTrips] are searches for a piece of
    text, case apart: with a non-empty filter made of characters other
    than the percent sign, the underscore and the backslash, the trips
    returned are exactly those whose vehicle number (or trip code) contains
    the filter once both are folded to lower case. *)
Theorem text_filter_is_substring_search (text : string) (db : Db) :
  text ≠ "" →
  plain_text text →
  (∃ result,
     Storage.getTrips (Some (Filters.mk (Some text) None None None)) db = (Returned result, db)
     ∧ ∀ t, t ∈ result ↔ t ∈ trips db ∧ occurs_in (lower text) (lower (Trip.vehicleNumber t)))
  ∧ (∃ result,
       Storage.getTrips (Some (Filters.mk None (Some text) None None)) db = (Returned result, db)
       ∧ ∀ t, t ∈ result ↔ t ∈ trips db ∧ occurs_in (lower text) (lower (Trip.tripId t))).
Proof.
  intros Hne Hplain. split.
  - eexists. split; [reflexivity|]. intros t.
    rewrite merge_sort_Permutation, list_elem_of_filter.
    unfold Storage.conditions, sql_and. cbn [mbind option_bind Filters.vehicleNumber
      Filters.tripId Filters.loadedAfter Filters.settled].
    rewrite bool_decide_eq_false_2 by done. cbn [app forallb].
    rewrite andb_true_r, Is_true_true, sql_ilike_contains by done. apply and_comm.
  - eexists. split; [reflexivity|]. intros t.
    rewrite merge_sort_Permutation, list_elem_of_filter.
    unfold Storage.conditions, sql_and. cbn [mbind option_bind Filters.vehicleNumber
      Filters.tripId Filters.loadedAfter Filters.settled].
    rewrite bool_decide_eq_false_2 by done. cbn [app forallb].
    rewrite andb_true_r, Is_true_true, sql_ilike_contains by done. apply and_comm.
Qed.

(** ** The further properties on the sample ledger *)

(** With a schema that rejects the body, creating and updating are both
    answered with 400 and the issue, even for trip 7, which does not
    exist. *)
Lemma invalid_payload_answered_400_witness :
  create_trip (H:=IntNumber.int_number) Sample.reject (Sample.get Sample.manager 7) Sample.db
  = (Returned (json 400 (FieldError "Required" "vehicleNumber")), Sample.db)
  ∧ update_trip (H:=IntNumber.int_number) Sample.reject (Sample.get Sample.manager 7) Sample.db
    = (Returned (json 400 (FieldError "Required" "vehicleNumber")), Sample.db).
Proof.
  apply (invalid_payload_answered_400 (H:=IntNumber.int_number) Sample.reject Sample.reject
           (Sample.get Sample.manager 7) Sample.manager
           (ZodError "Required" "vehicleNumber") Sample.db).
  - reflexivity.
  - reflexivity.
  - reflexivity.
Defined.

(** Creating a trip and renaming the vehicle of trip 1 keep the sample
    ledger's identifiers fresh. *)
Lemma ids_fresh_preserved_witness :
  ids_fresh (create_trip (H:=IntNumber.int_number) Returned
               (mkRequest (Some Sample.manager) 1 None Sample.new_trip 2024) Sample.db).2
  ∧ ids_fresh (update_trip (H:=IntNumber.int_number)
                 (λ _, Returned (Sample.set_vehicle "MH12AB9999"))
                 (mkRequest (Some Sample.manager) 1 None Sample.new_trip 2024) Sample.db).2.
Proof.
  apply (ids_fresh_preserved (H:=IntNumber.int_number) Returned
           (λ _, Returned (Sample.set_vehicle "MH12AB9999"))
           (mkRequest (Some Sample.manager) 1 None Sample.new_trip 2024) Sample.db).
  split.
  - apply (bool_decide_unpack _). reflexivity.
  - repeat apply Forall_cons_2; [done|done|]. apply Forall_nil_2.
Defined.

(** The trip the manager creates on the sample ledger is found under its
    identifier, which is new, and trips 1 and 2 are found as before. *)
Lemma created_trip_is_retrievable_witness :
  ∃ trip db',
    create_trip (H:=IntNumber.int_number) Returned
      (Sample.post Sample.manager Sample.new_trip) Sample.db
    = (Returned (json 201 (TripJson trip)), db')
    ∧ (Trip.id trip ∉ Trip.id <$> trips Sample.db)
    ∧ (∀ reader : User.t,
         get_trip (H:=IntNumber.int_number) (mkRequest (Some reader) (Trip.id trip) None Sample.new_trip 2024) db'
         = (Returned (json 200 (TripJson trip)), db'))
    ∧ (∀ id t, Storage.getTrip id Sample.db = (Returned (Some t), Sample.db) →
               Storage.getTrip id db' = (Returned (Some t), db')).
Proof.
  apply (created_trip_is_retrievable (H:=IntNumber.int_number) Returned
           (Sample.post Sample.manager Sample.new_trip) Sample.manager Sample.new_trip
           Sample.db).
  - split.
    + apply (bool_decide_unpack _). reflexivity.
    + repeat apply Forall_cons_2; [done|done|]. apply Forall_nil_2.
  - reflexivity.
  - reflexivity.
Defined.

(** The session the sample admin opens brings the admin back on the next
    request. *)
Lemma session_round_trip_witness :
  ∃ user,
    json (H:=IntNumber.int_number) 200 (UserJson Sample.admin) = json 200 (UserJson user)
    ∧ with_session (Some 1) Sample.incoming Sample.db
      = (Returned (on_behalf_of (Some user) Sample.incoming), Sample.db)
    ∧ (with_session (Some 1) Sample.incoming ≫= me (H:=IntNumber.int_number)) Sample.db
      = (Returned (json 200 (UserJson user)), Sample.db)
    ∧ ∃ out, logout (H:=IntNumber.int_number) Sample.db = (Returned out, Sample.db)
             ∧ statusCode (response out) = 200
             ∧ (with_session (session out) Sample.incoming ≫= me (H:=IntNumber.int_number))
                 Sample.db
               = (Returned (sendStatus 401), Sample.db).
Proof.
  apply (session_round_trip (H:=IntNumber.int_number) Sample.toy_scrypt
           (Some "admin") (Some "admin123") Sample.incoming Sample.db Sample.db
           (json 200 (UserJson Sample.admin)) 1).
  - apply (bool_decide_unpack _). reflexivity.
  - reflexivity.
Defined.

(** Neither the user whose password was stored as typed nor the one with
    a short key can log in: both requests fail with an error. *)
Lemma login_fails_on_unhashed_password_witness :
  login (H:=IntNumber.int_number) Sample.toy_scrypt (Some "meena") (Some "letmein")
    Sample.db_legacy
  = (Thrown (RuntimeError "TypeError"), Sample.db_legacy)
  ∧ login (H:=IntNumber.int_number) Sample.toy_scrypt (Some "omar") (Some "letmein")
      Sample.db_legacy
    = (Thrown (RuntimeError "RangeError"), Sample.db_legacy).
Proof.
  split.
  - apply (login_fails_on_unhashed_password (H:=IntNumber.int_number) Sample.toy_scrypt
             "meena" "letmein" Sample.legacy Sample.db_legacy).
    + discriminate.
    + discriminate.
    + reflexivity.
    + repeat (apply Forall_cons_2; [discriminate|]). apply Forall_nil_2.
  - apply (login_fails_on_unhashed_password (H:=IntNumber.int_number) Sample.toy_scrypt
             "omar" "letmein" Sample.short_key Sample.db_legacy) with "5a" "01".
    + discriminate.
    + discriminate.
    + reflexivity.
    + reflexivity.
    + repeat (apply Forall_cons_2; [discriminate|]). apply Forall_nil_2.
    + repeat (apply Forall_cons_2; [discriminate|]). apply Forall_nil_2.
    + discriminate.
Defined.

(** Seeding the sample ledger without users: the administrator created
    logs in with admin123. *)
Lemma seeded_admin_can_log_in_witness :
  ∃ admin,
    login (H:=IntNumber.int_number) Sample.toy_scrypt (Some "admin") (Some "admin123")
      (seed_admin Sample.toy_scrypt 1 [90%N] Sample.nobody).2
    = (Returned (mkLogin (json 200 (UserJson admin)) (Some 1)),
       (seed_admin Sample.toy_scrypt 1 [90%N] Sample.nobody).2)
    ∧ User.role admin = ROLES_ADMIN
    ∧ User.username admin = "admin".
Proof.
  apply (seeded_admin_can_log_in (H:=IntNumber.int_number) Sample.toy_scrypt 1 [90%N]
           Sample.nobody).
  - reflexivity.
  - repeat constructor.
  - repeat constructor.
Defined.

(** The manager is refused by all four routes of the administrator. *)
Lemma admin_routes_refuse_everyone_else_witness :
  motor_owner_analytics (H:=IntNumber.int_number) (Sample.post_user Sample.manager) Sample.db
  = (Returned (sendStatus 403), Sample.db)
  ∧ dashboard (H:=IntNumber.int_number) (plus:=IntPlus.int_plus)
      (Sample.post_user Sample.manager) Sample.db
    = (Returned (Plain (sendStatus 403)), Sample.db)
  ∧ party_analytics (H:=IntNumber.int_number) (Sample.post_user Sample.manager) Sample.db
    = (Returned (Plain (sendStatus 403)), Sample.db)
  ∧ create_user (H:=IntNumber.int_number) Sample.toy_scrypt Returned 5 [90%N]
      (Sample.post_user Sample.manager) Sample.db
    = (Returned (sendStatus 403), Sample.db).
Proof.
  apply (admin_routes_refuse_everyone_else (H:=IntNumber.int_number) (plus:=IntPlus.int_plus)
           Sample.toy_scrypt Returned
           5 [90%N] (Sample.post_user Sample.manager) Sample.db).
  intros u [= <-]. discriminate.
Defined.

(** The sample admin registers Asha: names stay distinct and the two
    users registered before stay in place. *)
Lemma create_user_keeps_usernames_unique_witness :
  NoDup (User.username <$>
           users (create_user (H:=IntNumber.int_number) Sample.toy_scrypt Returned 5 [90%N]
                    (Sample.post_user Sample.admin) Sample.db).2)
  ∧ users Sample.db
    `prefix_of` users (create_user (H:=IntNumber.int_number) Sample.toy_scrypt Returned 5
                         [90%N] (Sample.post_user Sample.admin) Sample.db).2.
Proof.
  destruct (create_user_keeps_usernames_unique (H:=IntNumber.int_number) Sample.toy_scrypt
              Returned 5 [90%N] (Sample.post_user Sample.admin) Sample.db)
    as (Hnames & Hprefix & _).
  - apply (bool_decide_unpack _). reflexivity.
  - split; [exact Hnames|exact Hprefix].
Defined.

(** Asha, once registered by the sample admin, logs in with her password,
    and her name cannot be registered again. *)
Lemma created_user_can_log_in_witness :
  ∃ user db',
    create_user (H:=IntNumber.int_number) Sample.toy_scrypt Returned 5 [90%N]
      (Sample.post_user Sample.admin) Sample.db
    = (Returned (json 201 (UserJson user)), db')
    ∧ User.password user = "5a:0000"
    ∧ User.role user = ROLES_MANAGER
    ∧ login (H:=IntNumber.int_number) Sample.toy_scrypt (Some "asha") (Some "s3cret") db'
      = (Returned (mkLogin (json 200 (UserJson user)) (Some 5)), db')
    ∧ ∀ id2 salt2,
        create_user (H:=IntNumber.int_number) Sample.toy_scrypt Returned id2 salt2 (Sample.post_user Sample.admin) db'
        = (Returned (json 400 (FieldError "Username already exists" "username")), db').
Proof.
  apply (created_user_can_log_in (H:=IntNumber.int_number) Sample.toy_scrypt Returned 5 [90%N]
           (Sample.post_user Sample.admin) Sample.admin Sample.new_user Sample.db).
  - reflexivity.
  - reflexivity.
  - reflexivity.
  - reflexivity.
  - discriminate.
  - discriminate.
  - repeat constructor.
  - repeat constructor.
Defined.

(** On the larger sample ledger, [settled=yes] is as good as no
    [settled], and an unreadable date makes the handler raise. *)
Lemma list_trips_ignores_unusable_filters_witness :
  let GET q :=
    list_trips (H:=IntNumber.int_number) Sample.no_date
      (mkRequest (Some Sample.manager) 0 (Some q) () 2024) Sample.fleet in
  GET (Query.mk (Some "mh12") None None (Some "yes"))
  = GET (Query.mk (Some "mh12") None None None)
  ∧ GET (Query.mk (Some "") None None None) = GET (Query.mk None None None None)
  ∧ GET (Query.mk (Some "mh12") (Some "") None None) = GET (Query.mk (Some "mh12") None None None)
  ∧ GET (Query.mk (Some "mh12") None (Some "") None) = GET (Query.mk (Some "mh12") None None None)
  ∧ GET (Query.mk (Some "mh12") None (Some "tomorrow") None)
    = (Thrown (RuntimeError "RangeError"), Sample.fleet).
Proof.
  apply (list_trips_ignores_unusable_filters (H:=IntNumber.int_number) Sample.no_date
           Sample.manager 0 2024 () (Query.mk (Some "mh12") None None None)
           "yes" "tomorrow" Sample.fleet).
  - discriminate.
  - discriminate.
  - discriminate.
  - reflexivity.
Defined.

(** Searching the larger sample ledger for mh12 finds the trips whose
    vehicle number contains MH12. *)
Lemma text_filter_is_substring_search_witness :
  (∃ result,
     Storage.getTrips (Some (Filters.mk (Some "mh12") None None None)) Sample.fleet
     = (Returned result, Sample.fleet)
     ∧ ∀ t, t ∈ result
            ↔ t ∈ trips Sample.fleet
              ∧ occurs_in (lower "mh12") (lower (Trip.vehicleNumber t)))
  ∧ (∃ result,
       Storage.getTrips (Some (Filters.mk None (Some "mh12") None None)) Sample.fleet
       = (Returned result, Sample.fleet)
       ∧ ∀ t, t ∈ result
              ↔ t ∈ trips Sample.fleet ∧ occurs_in (lower "mh12") (lower (Trip.tripId t))).
Proof.
  apply (text_filter_is_substring_search "mh12" Sample.fleet).
  - discriminate.
  - repeat (apply Forall_cons_2; [repeat split; discriminate|]). apply Forall_nil_2.
Defined.

(** The dashboard of the larger sample ledger, as the sample admin sees
    it. *)
Lemma dashboard_counts_witness :
  ∃ stats,
    dashboard (H:=IntNumber.int_number) (plus:=IntPlus.int_plus)
      (Sample.get Sample.admin 0) Sample.fleet
    = (Returned (Sent 200 (DashboardJson stats)), Sample.fleet)
    ∧ DashboardStats.totalTrips stats = length (trips Sample.fleet)
    ∧ (DashboardStats.activeTrips stats + length (filter closed (trips Sample.fleet)))%nat
      = DashboardStats.totalTrips stats
    ∧ (trips Sample.fleet = [] →
       DashboardStats.partyRevenue stats = Some 0
       ∧ DashboardStats.pendingAmount stats = Some 0)
    ∧ ∀ db2 stats2,
        Storage.getDashboardStats (H0:=IntPlus.int_plus) db2 = (Returned stats2, db2) →
        DashboardStats.monthlyTrips stats2 = DashboardStats.monthlyTrips stats
        ∧ DashboardStats.revenueFlow stats2 = DashboardStats.revenueFlow stats.
Proof.
  apply (dashboard_counts (H:=IntNumber.int_number) (plus:=IntPlus.int_plus)
           (Sample.get Sample.admin 0) Sample.admin
           Sample.fleet).
  - reflexivity.
  - reflexivity.
Defined.

(** The dashboard before and after the manager creates the sample trip. *)
Lemma dashboard_after_create_witness :
  ∃ before after trip,
    Storage.getDashboardStats (H:=IntNumber.int_number) (H0:=IntPlus.int_plus) Sample.db = (Returned before, Sample.db)
    ∧ (create_trip (H:=IntNumber.int_number) Returned
         (Sample.post Sample.manager Sample.new_trip)
       ≫= λ _, Storage.getDashboardStats (H0:=IntPlus.int_plus)) Sample.db
      = (Returned after,
         (create_trip (H:=IntNumber.int_number) Returned
            (Sample.post Sample.manager Sample.new_trip) Sample.db).2)
    ∧ (create_trip (H:=IntNumber.int_number) Returned
         (Sample.post Sample.manager Sample.new_trip) Sample.db).1
      = Returned (json 201 (TripJson trip))
    ∧ DashboardStats.totalTrips after = S (DashboardStats.totalTrips before)
    ∧ DashboardStats.activeTrips after
      = (DashboardStats.activeTrips before + if decide (closed trip) then 0 else 1)%nat
    ∧ DashboardStats.partyRevenue after
      = num_add (JsPlus:=IntPlus.int_plus) (DashboardStats.partyRevenue before)
          (Number_or0 (JString "900"))
    ∧ DashboardStats.pendingAmount after
      = num_add (JsPlus:=IntPlus.int_plus) (DashboardStats.pendingAmount before)
          (Number_or0
             (JString (balance_text (H:=IntNumber.int_number) (JString "900") (JString "150")))).
Proof.
  apply (dashboard_after_create (H:=IntNumber.int_number) (plus:=IntPlus.int_plus) Returned
           (Sample.post Sample.manager Sample.new_trip) Sample.manager Sample.new_trip
           Sample.db).
  - reflexivity.
  - reflexivity.
Defined.

(** The reports of the larger sample ledger: Acme has three trips, Bharat
    Traders one. *)
Example party_analytics_on_fleet :
  Storage.getPartyAnalytics (H:=IntNumber.int_number) Sample.fleet
  = (Returned
       [ PartyAnalytics.mk (H:=IntNumber.int_number)
           (JString "Bharat Traders") (Some 1) (Some 400) (Some 0) (Some 400);
         PartyAnalytics.mk (H:=IntNumber.int_number)
           (JString "Acme") (Some 3) (Some 2300) (Some 1500) (Some 800) ],
     Sample.fleet).
Proof. reflexivity. Qed.

Example dashboard_on_fleet :
  Storage.getDashboardStats (H:=IntNumber.int_number) (H0:=IntPlus.int_plus) Sample.fleet
  = (Returned
       (DashboardStats.mk (H:=IntNumber.int_number) 4 1 (Some 2700) (Some 1200)
          [("2024-01", 12); ("2024-02", 19); ("2024-03", 15)]
          [("Jan", 50000); ("Feb", 75000); ("Mar", 60000)]),
     Sample.fleet).
Proof. reflexivity. Qed.

(** The two sample trips are numbered 1 and 2, and stay numbered in
    sequence when a trip is created or trip 1 is updated. *)
Lemma trip_codes_stay_unique_witness :
  NoDup (Trip.tripId <$> trips Sample.db)
  ∧ codes_in_sequence
      (create_trip (H:=IntNumber.int_number) Returned
         (mkRequest (Some Sample.manager) 1 None Sample.new_trip 2024) Sample.db).2
  ∧ codes_in_sequence
      (update_trip (H:=IntNumber.int_number)
         (λ _, Returned (Sample.set_vehicle "MH12AB9999"))
         (mkRequest (Some Sample.manager) 1 None Sample.new_trip 2024) Sample.db).2.
Proof.
  apply (trip_codes_stay_unique (H:=IntNumber.int_number) Returned
           (λ _, Returned (Sample.set_vehicle "MH12AB9999"))
           (mkRequest (Some Sample.manager) 1 None Sample.new_trip 2024) Sample.db).
  intros [|[|i]] t Hi.
  - injection Hi as <-. exists 2024. reflexivity.
  - injection Hi as <-. exists 2024. reflexivity.
  - discriminate Hi.
Defined.

(** Where the rows are not numbered in sequence a code can repeat: with
    the first sample trip gone, the next trip created in 2024 gets the code
    of the settled one. *)
Example trip_code_repeats_after_a_gap :
  ¬ codes_in_sequence Sample.gap
  ∧ ∃ trip db',
      create_trip (H:=IntNumber.int_number) Returned
        (Sample.post Sample.manager Sample.new_trip) Sample.gap
      = (Returned (json 201 (TripJson trip)), db')
      ∧ Trip.tripId trip = Trip.tripId Sample.settled.
Proof.
  split.
  - intros Hcodes. destruct (Hcodes 0%nat Sample.settled eq_refl) as [y Hy].
    change (Trip.tripId Sample.settled) with ("2024" +:+ String "_" "2") in Hy.
    apply split_at_underscore in Hy as [_ Hy]; [done| |apply pretty_Z_no_underscore].
    repeat (apply Forall_cons_2; [discriminate|]). apply Forall_nil_2.
  - eexists _, _. split; reflexivity.
Qed.
